(** * Panchang scraper: a shallow embedding of [api/app.py] and [app.py]

    The development follows the two Flask applications of the repository:
    - [api/app.py]: the current scraper, with the three-tier search for the
      panchang card and the per-key helper [get_value_from_table];
    - [app.py]: the earlier scraper, with a single container lookup and the
      helper [get_value_from_row].
    Both files share the request handler [get_panchang] up to the texts of
    their messages.

    Python values are modelled as follows.
    - [str] is [string]; the text operations used by the code ([lower],
      [strip], [join], [in]) are written out for ASCII text.
    - A [datetime.date] is its proleptic Gregorian ordinal, kept inside the
      range [date.min .. date.max] by the type.
    - A [dict] with string keys is a [gmap string string].
    - A parsed document is a tree; a BeautifulSoup [Tag] is a position in it.
    - Exceptions are an explicit outcome; the network is an explicit trace. *)

From Stdlib Require Import ZArith Ascii String List Bool Lia.
From stdpp Require Import base option list strings gmap.
From Equations Require Import Equations.

Local Open Scope string_scope.
Set Warnings "-register-all".

(** ** Python text operations *)

Module Py.

(** [str.isspace] on ASCII: TAB, LF, VT, FF, CR, FS, GS, RS, US and space. *)
Definition is_space (c : ascii) : bool :=
  let n := nat_of_ascii c in
  ((9 <=? n)%nat && (n <=? 13)%nat) || ((28 <=? n)%nat && (n <=? 32)%nat).

Definition lower_char (c : ascii) : ascii :=
  let n := nat_of_ascii c in
  if (65 <=? n)%nat && (n <=? 90)%nat then ascii_of_nat (n + 32) else c.

(** [s.lower()] *)
Fixpoint lower (s : string) : string :=
  match s with
  | EmptyString => EmptyString
  | String c s' => String (lower_char c) (lower s')
  end.

Fixpoint lstrip (s : string) : string :=
  match s with
  | EmptyString => EmptyString
  | String c s' => if is_space c then lstrip s' else s
  end.

Fixpoint rstrip (s : string) : string :=
  match s with
  | EmptyString => EmptyString
  | String c s' =>
      match rstrip s' with
      | EmptyString => if is_space c then EmptyString else String c EmptyString
      | r => String c r
      end
  end.

(** [s.strip()] *)
Definition strip (s : string) : string := rstrip (lstrip s).

(** [sep.join(parts)] *)
Fixpoint join (sep : string) (parts : list string) : string :=
  match parts with
  | [] => EmptyString
  | [p] => p
  | p :: rest => p ++ sep ++ join sep rest
  end.

(** [s.startswith(k)] *)
Fixpoint startswith (k s : string) : bool :=
  match k, s with
  | EmptyString, _ => true
  | String a k', String b s' => if Ascii.eqb a b then startswith k' s' else false
  | String _ _, EmptyString => false
  end.

(** [k in s] for two strings: [k] occurs in [s] at some offset. *)
Fixpoint contains (k s : string) : bool :=
  startswith k s ||
  match s with
  | EmptyString => false
  | String _ s' => contains k s'
  end.

(** Truth value of an optional string, as in [if x:] and [all([...])]:
    [None] and the empty string are false. *)
Definition truthy (x : option string) : bool :=
  match x with
  | None => false
  | Some EmptyString => false
  | Some (String _ _) => true
  end.

(** The exception classes the code can meet. [RequestException] stands for
    the whole [requests.exceptions] family ([HTTPError] included). *)
Inductive exn : Type :=
| RequestException
| ValueError
| NameError
| OverflowError
| OtherError (what : string).

(** [isinstance(e, requests.exceptions.RequestException)] *)
Definition is_request_exception (e : exn) : bool :=
  match e with RequestException => true | _ => false end.

(** The outcome of running a piece of code: a value or a raised exception. *)
Inductive outcome (A : Type) : Type :=
| Ok (a : A)
| Raise (e : exn).
Global Arguments Ok {A} a.
Global Arguments Raise {A} e.

Definition obind {A B} (m : outcome A) (k : A → outcome B) : outcome B :=
  match m with
  | Ok a => k a
  | Raise e => Raise e
  end.

End Py.

Import Py.

Notation "'do!' x ← m ; k" := (obind m (λ x, k))
  (at level 10, x name, m at level 100, k at level 200,
   format "'[' 'do!'  x  ←  m ;  '/' k ']'").

(** ** Parsed documents

    The tree BeautifulSoup builds: strings and elements with a tag name,
    the values of their [class] attribute and their contents. A string is
    either ordinary text ([NavigableString], [CData]) or one of the kinds
    BeautifulSoup sets apart: a comment (and, alike, a doctype, declaration
    or processing instruction) and the strings the parser finds inside
    [script], [style], [template], [rt] and [rp]. The kinds matter because
    [.string] returns a string of any kind, while [.text] and
    [.stripped_strings] of a tag return only the strings of the kind that
    tag looks at. Other attributes play no part in the scraper. *)

Module Dom.

Inductive kind : Type :=
| Comment
| Script
| Stylesheet
| TemplateString
| RubyTextString
| RubyParenthesisString.

Global Instance kind_eq_dec : EqDecision kind.
Proof. solve_decision. Defined.

Inductive node : Type :=
| Text (s : string)
| Special (k : kind) (s : string)
| Elem (name : string) (classes : list string) (contents : list node).

Definition contents_of (n : node) : list node :=
  match n with
  | Text _ | Special _ _ => []
  | Elem _ _ cs => cs
  end.

(** The node reached from [n] by following child indices. *)
Fixpoint node_at (n : node) (p : list nat) : option node :=
  match p with
  | [] => Some n
  | i :: p' =>
      match contents_of n !! i with
      | Some c => node_at c p'
      | None => None
      end
  end.

(** [.descendants]: every node below [n], in document order, with the path
    that leads to it. *)
Fixpoint descendants (n : node) : list (list nat * node) :=
  match n with
  | Text _ | Special _ _ => []
  | Elem _ _ cs =>
      (fix go (i : nat) (cs : list node) : list (list nat * node) :=
         match cs with
         | [] => []
         | c :: cs' =>
             ([i], c) :: map (λ d, (i :: d.1, d.2)) (descendants c)
               ++ go (S i) cs'
         end) 0%nat cs
  end.

(** [.string]: the single string below a node, of whatever kind, if there
    is exactly one way down to it. *)
Fixpoint node_string (n : node) : option string :=
  match n with
  | Text s => Some s
  | Special _ s => Some s
  | Elem _ _ [c] => node_string c
  | Elem _ _ _ => None
  end.

(** [interesting_string_types] of a tag, by its name: the one kind a
    [script], [style], [template], [rt] or [rp] tag looks at, and [None]
    for every other tag, which looks at ordinary text. *)
Definition interesting (name : string) : option kind :=
  if String.eqb name "script" then Some Script
  else if String.eqb name "style" then Some Stylesheet
  else if String.eqb name "template" then Some TemplateString
  else if String.eqb name "rt" then Some RubyTextString
  else if String.eqb name "rp" then Some RubyParenthesisString
  else None.

(** [_all_strings(types=...)]: the strings below a node that are of the
    kind looked at, in document order. *)
Fixpoint strings (types : option kind) (n : node) : list string :=
  match n with
  | Text s => match types with None => [s] | Some _ => [] end
  | Special k s => if decide (types = Some k) then [s] else []
  | Elem _ _ cs => flat_map (strings types) cs
  end.

(** The kind of strings a node looks at when asked for its text. *)
Definition types_of (n : node) : option kind :=
  match n with
  | Text _ | Special _ _ => None
  | Elem name _ _ => interesting name
  end.


(** The test behind [find_all(name, class_=cls)]: an element called [name]
    one of whose classes is [cls]. *)
Definition matches (name cls : string) (n : node) : bool :=
  match n with
  | Text _ | Special _ _ => false
  | Elem nm cl _ => String.eqb nm name && existsb (String.eqb cls) cl
  end.

Definition is_element (n : node) : bool :=
  match n with
  | Text _ | Special _ _ => false
  | Elem _ _ _ => true
  end.

Definition named (name : string) (n : node) : bool :=
  match n with
  | Text _ | Special _ _ => false
  | Elem nm _ _ => String.eqb nm name
  end.

(** A Tag object: a place in a document. *)
Record Tag : Type := mkTag { tag_root : node; tag_path : list nat }.

Definition tag_node (t : Tag) : option node := node_at (tag_root t) (tag_path t).

Definition tag_test (f : node → bool) (t : Tag) : bool :=
  match tag_node t with
  | Some n => f n
  | None => false
  end.

(** [BeautifulSoup(...)]: the document object, a Tag named [[document]]. *)
Definition soup_of (top : list node) : Tag :=
  mkTag (Elem "[document]" [] top) [].

Definition tag_descendants (t : Tag) : list Tag :=
  match tag_node t with
  | Some n => map (λ d, mkTag (tag_root t) (tag_path t ++ d.1)) (descendants n)
  | None => []
  end.

(** [t.find_all(name, class_=cls)] *)
Definition find_all (t : Tag) (name cls : string) : list Tag :=
  filter (λ x, tag_test (matches name cls) x = true) (tag_descendants t).

(** [t.string] *)
Definition tag_string (t : Tag) : option string :=
  match tag_node t with
  | Some n => node_string n
  | None => None
  end.

(** [t.find(name, class_=cls)] and [t.find(name, class_=cls, string=s)]:
    the first match in document order, or [None]. *)
Definition string_is (str : option string) (t : Tag) : bool :=
  match str with
  | None => true
  | Some s => bool_decide (tag_string t = Some s)
  end.

Definition find (t : Tag) (name cls : string) (str : option string) : option Tag :=
  head (filter (λ x, string_is str x = true) (find_all t name cls)).

(** The same searches without a tag name: [t.find_all(class_=cls)] and
    [t.find(class_=cls)], as [app.py] calls them. *)
Definition has_class (cls : string) (n : node) : bool :=
  match n with
  | Text _ | Special _ _ => false
  | Elem _ cl _ => existsb (String.eqb cls) cl
  end.

Definition find_all_class (t : Tag) (cls : string) : list Tag :=
  filter (λ x, tag_test (has_class cls) x = true) (tag_descendants t).

Definition find_class (t : Tag) (cls : string) : option Tag :=
  head (find_all_class t cls).

(** [t.text]: the strings below [t] that [t] looks at, put together as
    they are. *)
Definition tag_text (t : Tag) : string :=
  match tag_node t with
  | Some n => String.concat "" (strings (types_of n) n)
  | None => ""
  end.

(** The tags that enclose the tag reached by the first [k] steps of [p],
    nearest first, up to the document. *)
Definition enclosing (r : node) (p : list nat) (k : nat) : list Tag :=
  map (λ j, mkTag r (take j p)) (reverse (seq 0 k)).

(** [.parents]: the enclosing tags of [t], nearest first. *)
Definition parents (t : Tag) : list Tag :=
  enclosing (tag_root t) (tag_path t) (length (tag_path t)).

(** [t.find_parent(name)] *)
Definition find_parent (t : Tag) (name : string) : option Tag :=
  head (filter (λ x, tag_test (named name) x = true) (parents t)).

(** [.next_siblings]: the nodes after [t] under the same parent. *)
Definition next_siblings (t : Tag) : list Tag :=
  match reverse (tag_path t) with
  | [] => []
  | i :: rp =>
      let pp := reverse rp in
      match node_at (tag_root t) pp with
      | Some pn =>
          map (λ j, mkTag (tag_root t) (pp ++ [j]))
              (seq (S i) (length (contents_of pn) - S i))
      | None => []
      end
  end.

(** [t.find_next_sibling(name, class_=cls)] *)
Definition find_next_sibling (t : Tag) (name cls : string) : option Tag :=
  head (filter (λ x, tag_test (matches name cls) x = true) (next_siblings t)).

(** [t.stripped_strings]: the strings below [t] that [t] looks at, each
    stripped, the empty ones dropped. *)
Definition stripped_strings (t : Tag) : list string :=
  match tag_node t with
  | Some n => filter (λ s, s ≠ "") (map strip (strings (types_of n) n))
  | None => []
  end.

End Dom.

Import Dom.

(** The three Tag operations used by the per-key helper, as an interface
    whose operations may raise. The helper is written against it, so that
    its local handler has something to catch. *)
Record TagOps : Type := mkTagOps {
  op_find_all : Tag → string → string → outcome (list Tag);
  op_stripped_strings : Tag → outcome (list string);
  op_find_next_sibling : Tag → string → string → outcome (option Tag)
}.

(** BeautifulSoup's own operations: they never raise. *)
Definition bs4_ops : TagOps := {|
  op_find_all t name cls := Ok (find_all t name cls);
  op_stripped_strings t := Ok (stripped_strings t);
  op_find_next_sibling t name cls := Ok (find_next_sibling t name cls)
|}.

(** ** Dates *)

Module Datetime.

(** [date.max.toordinal()], the ordinal of 9999-12-31. *)
Definition MAXORDINAL : Z := 3652059.

Definition in_range (o : Z) : bool := (1 <=? o)%Z && (o <=? MAXORDINAL)%Z.

(** A [datetime.date], by its ordinal: day 1 is 0001-01-01. *)
Record date : Type := mkdate {
  toordinal : Z;
  date_in_range : in_range toordinal = true
}.

(** [date.fromordinal(o)], when [o] is a representable day. *)
Definition fromordinal (o : Z) : option date :=
  match Sumbool.sumbool_of_bool (in_range o) with
  | left H => Some (mkdate o H)
  | right _ => None
  end.

(** [a <= b] *)
Definition date_le (a b : date) : bool := (toordinal a <=? toordinal b)%Z.

(** [d + timedelta(days=n)]: raises [OverflowError] outside the range. *)
Definition add_days (d : date) (n : Z) : outcome date :=
  match fromordinal (toordinal d + n) with
  | Some d' => Ok d'
  | None => Raise OverflowError
  end.

Definition date_min : date := mkdate 1 eq_refl.
Definition date_max : date := mkdate MAXORDINAL eq_refl.

End Datetime.

Import Datetime.

(** ** The libraries and the network

    What the code calls and the repository does not define: the date parser
    and formatter, the HTTP client and the HTML parser. The HTTP client may
    answer differently as requests accumulate, so it sees the URLs asked
    before. *)

Record response : Type := mkResponse { status_code : Z; text : string }.

Class Platform : Type := {
  (** [datetime.strptime(s, fmt).date()]; [None] is the [ValueError] it
      raises on a string that does not fit the format or names no day *)
  strptime : string → string → option date;
  (** [d.strftime(fmt)] *)
  strftime : date → string → string;
  (** [requests.get(url, headers=..., timeout=...)], given the earlier requests *)
  requests_get : list string → string → outcome response;
  (** the contents of [BeautifulSoup(text, 'html.parser')] *)
  html_parser : string → list node
}.

(** [response.raise_for_status()] *)
Definition raise_for_status (r : response) : outcome unit :=
  if (400 <=? status_code r)%Z && (status_code r <? 600)%Z
  then Raise RequestException else Ok tt.

(** What [jsonify] is given, and the status code sent with it. *)
Inductive body : Type :=
| ErrorBody (error : string)
| PanchangBody (panchang : list (gmap string string)).

Definition http_response : Type := body * Z.

(** ** The request handler ([get_panchang], the same in both files)

    The two files differ in the day scraper they call and in the texts of
    three messages; the handler is written once over both and each file's
    module applies it to its own. *)

Module Handler.

Section Handler.
Context `{Platform}.
Variable scrape_panchang_for_day :
  date → string → list string → option (gmap string string) * list string.
Variable missing_message invalid_message failed_message : string.

(** The entry appended for the day: the scraped record if it is a true
    value, the error entry otherwise. *)
Definition day_entry (current_date : date) (day_data : option (gmap string string))
  : gmap string string :=
  let error_entry : gmap string string :=
    <["error" := failed_message]> {[ "date" := strftime current_date "%Y-%m-%d" ]} in
  match day_data with
  | Some d => if decide (d = ∅) then error_entry else d
  | None => error_entry
  end.

(** The [while current_date <= end_date] loop. The result is the list
    when the loop ends, or the exception that left it, with the trace.
    The day is scraped and its entry appended before [current_date] is
    moved on; the move is a pure computation and is examined first only to
    name the next day, the request of the day being made in either case. *)
Equations? while_days (current_date end_date : date) (location : string)
    (all_panchang_data : list (gmap string string)) (trace : list string)
  : outcome (list (gmap string string)) * list string
  by wf (Z.to_nat (toordinal end_date - toordinal current_date + 1)) lt :=
  while_days current_date end_date location all_panchang_data trace
    with Logic.inspect (date_le current_date end_date) := {
    | exist _ true Hle
        with Logic.inspect (add_days current_date 1) := {
        | exist _ (Ok next) Hnext =>
            let r := scrape_panchang_for_day current_date location trace in
            while_days next end_date location
              (all_panchang_data ++ [day_entry current_date r.1]) r.2
        | exist _ (Raise e) _ =>
            let r := scrape_panchang_for_day current_date location trace in
            (Raise e, r.2) };
    | exist _ false _ => (Ok all_panchang_data, trace) }.
Proof.
  unfold date_le in Hle. apply Z.leb_le in Hle.
  unfold add_days in Hnext.
  destruct (fromordinal _) as [d|] eqn:Hd; [|discriminate].
  injection Hnext as ->.
  unfold fromordinal in Hd.
  destruct (Sumbool.sumbool_of_bool _); [|discriminate].
  injection Hd as <-. simpl. lia.
Qed.

Definition get_panchang (args : gmap string string) (trace : list string)
  : outcome http_response * list string :=
  let start_date_str := args !! "start_date" in
  let end_date_str := args !! "end_date" in
  let location := args !! "location" in
  if negb (forallb truthy [start_date_str; end_date_str; location]) then
    (Ok (ErrorBody missing_message, 400%Z), trace)
  else
    let parsed :=
      start_date ← strptime (default "" start_date_str) "%Y-%m-%d";
      end_date ← strptime (default "" end_date_str) "%Y-%m-%d";
      Some (start_date, end_date) in
    match parsed with
    | None =>                     (* except ValueError *)
        (Ok (ErrorBody invalid_message, 400%Z), trace)
    | Some (start_date, end_date) =>
        let r := while_days start_date end_date (default "" location) [] trace in
        (do! all_panchang_data ← r.1; Ok (PanchangBody all_panchang_data, 200%Z), r.2)
    end.
End Handler.

End Handler.

(** ** [api/app.py] *)

Module Api.

(** *** Finding the panchang card ([scrape_panchang_for_day], lines 46-74) *)

(** Where the search stands when line 76 is reached: either the function has
    already returned [None] (line 74), or [panchang_card] holds a tag or
    [None]. *)
Inductive located : Type :=
| ReturnedNone
| Card (panchang_card : option Tag).

(** How deep a tag sits, counted from the document; [find_parent] lowers
    it, which is why the loop below ends. *)
Definition height (t : option Tag) : nat :=
  match t with
  | None => 0
  | Some t => S (length (tag_path t))
  end.

(** The loop of lines 60-65, started with [current_parent]; the result is
    [panchang_card] when the loop is left. *)
Equations? walk_up (current_parent : option Tag) : option Tag
  by wf (height current_parent) lt :=
  walk_up None := None;
  walk_up (Some cp) :=
    if (5 <=? length (find_all cp "div" "dpTableKey"))%nat
    then Some cp
    else walk_up (find_parent cp "div").
Proof.
  unfold find_parent.
  destruct (head _) as [a|] eqn:Ha; simpl; [|lia].
  apply head_Some_elem_of, list_elem_of_filter in Ha as [_ Ha].
  unfold parents in Ha.
  apply list_elem_of_fmap in Ha as (k & -> & Hk).
  apply elem_of_reverse, elem_of_seq in Hk. simpl.
  rewrite length_take. lia.
Qed.

Definition find_panchang_card (soup : Tag) : located :=
  match find soup "div" "dpPanchangCard" None with
  | Some panchang_card => Card (Some panchang_card)
  | None =>
      match find soup "div" "dpTableKey" (Some "Sunrise") with
      | Some sunrise_key_element =>
          let current_parent := find_parent sunrise_key_element "div" in
          match walk_up current_parent with
          | Some panchang_card => Card (Some panchang_card)
          | None => Card (find_parent sunrise_key_element "div")
          end
      | None => ReturnedNone
      end
  end.

(** *** The per-key helper ([get_value_from_table], lines 85-105) *)

Section Helper.
Variable ops : TagOps.
Variable panchang_card : Tag.
Variable key_name : string.

(** [' '.join(t.stripped_strings).strip()] *)
Definition joined_text (t : Tag) : outcome string :=
  do! ss ← op_stripped_strings ops t;
  Ok (strip (join " " ss)).

(** The [for] loop of lines 90-100. [Ok (Some v)] is a [return v] from
    inside the loop, [Ok None] is the loop running to its end. *)
Fixpoint for_key_elements (key_elements : list Tag) : outcome (option string) :=
  match key_elements with
  | [] => Ok None
  | key_element :: rest =>
      do! label ← joined_text key_element;
      if contains (lower key_name) (lower label) then
        do! value_element ← op_find_next_sibling ops key_element "div" "dpTableValue";
        match value_element with
        | Some value_element =>
            do! v ← joined_text value_element;
            Ok (Some v)
        | None =>
            (* the warning of line 99 formats the label once more *)
            do! _ ← joined_text key_element;
            Ok (Some "Not Found")
        end
      else for_key_elements rest
  end.

(** The body of the [try] block. *)
Definition try_get_value : outcome (option string) :=
  do! key_elements ← op_find_all ops panchang_card "div" "dpTableKey";
  for_key_elements key_elements.

Definition get_value_from_table : string :=
  match try_get_value with
  | Ok (Some v) => v
  | Ok None => "Not Found"
  | Raise _ => "Not Found"     (* except Exception *)
  end.
End Helper.

(** *** Vocabulary for the statements *)

(** The label elements below a tag: [t.find_all('div', class_='dpTableKey')]. *)
Definition labels (t : Tag) : list Tag := find_all t "div" "dpTableKey".

(** The enclosing [div]s of a tag, nearest first: what repeated
    [find_parent('div')] visits. *)
Definition div_parents (t : Tag) : list Tag :=
  filter (λ x, tag_test (named "div") x = true) (parents t).

(** The anchor the search settles on, if any. *)
Definition resolved_anchor (soup : Tag) : option Tag :=
  match find_panchang_card soup with
  | Card (Some panchang_card) => Some panchang_card
  | Card None | ReturnedNone => None
  end.

(** The text of a label or value as the helper reads it:
    [' '.join(t.stripped_strings).strip()]. *)
Definition joined (t : Tag) : string := strip (join " " (stripped_strings t)).



(** The six keys looked up (lines 108-113), each with the field it fills. *)
Definition target_keys : list (string * string) :=
  [("Sunrise", "sunrise"); ("Sunset", "sunset"); ("Tithi", "tithi");
   ("Nakshatra", "nakshatra"); ("Yoga", "yoga"); ("Karana", "karana")].



(** A third such reading: the value element right beside a label, that is,
    the element that comes next after the label under the same parent, when
    it is a [div.dpTableValue]. *)
Definition adjacent_value (label : Tag) : option Tag :=
  match filter (λ x, tag_test is_element x = true) (next_siblings label) with
  | [] => None
  | x :: _ => if tag_test (matches "div" "dpTableValue") x then Some x else None
  end.

(** *** One day ([scrape_panchang_for_day]) *)

Section Scraper.
Context `{Platform}.

(** Lines 44-122: what the function does with the parsed document. *)
Definition scrape_soup (ops : TagOps) (soup : Tag) (date_obj : date)
  : outcome (option (gmap string string)) :=
  match find_panchang_card soup with
  | ReturnedNone => Ok None
  | Card None =>
      (* line 77 formats [date_str_for_day], a name that is not defined *)
      Raise NameError
  | Card (Some panchang_card) =>
      let data : gmap string string := {[ "date" := strftime date_obj "%Y-%m-%d" ]} in
      let sunrise := get_value_from_table ops panchang_card "Sunrise" in
      let data := <["sunrise" := sunrise]> data in
      let sunset := get_value_from_table ops panchang_card "Sunset" in
      let data := <["sunset" := sunset]> data in
      let tithi := get_value_from_table ops panchang_card "Tithi" in
      let data := <["tithi" := tithi]> data in
      let nakshatra := get_value_from_table ops panchang_card "Nakshatra" in
      let data := <["nakshatra" := nakshatra]> data in
      let yoga := get_value_from_table ops panchang_card "Yoga" in
      let data := <["yoga" := yoga]> data in
      let karana := get_value_from_table ops panchang_card "Karana" in
      let data := <["karana" := karana]> data in
      if bool_decide ("Not Found" ∈ [sunrise; sunset; tithi; nakshatra; yoga; karana])
      then Ok (Some data)
      else Ok (Some data)
  end.

Definition geoname_id : string := "1261481".

Definition url_for (date_str_for_url : string) : string :=
  "https://www.drikpanchang.com/panchang/day-panchang.html?geoname-id="
    ++ geoname_id ++ "&date=" ++ date_str_for_url.

(** The whole function, with the tag operations of the helper left open.
    The trace is the list of URLs requested so far. *)
Definition scrape_panchang_for_day_with (ops : TagOps)
    (date_obj : date) (location_str : string) (trace : list string)
  : option (gmap string string) * list string :=
  let date_str_for_url := strftime date_obj "%d/%m/%Y" in
  let url := url_for date_str_for_url in
  let attempt :=
    do! response ← requests_get trace url;
    do! _ ← raise_for_status response;
    let soup := soup_of (html_parser (text response)) in
    scrape_soup ops soup date_obj in
  (match attempt with
   | Ok day_data => day_data
   | Raise e =>
       if is_request_exception e
       then None                 (* except RequestException *)
       else None                 (* except Exception *)
   end, (trace ++ [url])%list).

Definition scrape_panchang_for_day := scrape_panchang_for_day_with bs4_ops.

Definition failed_message : string :=
  "Failed to retrieve complete data for this day. Check backend logs for details.".

(** The loop of [get_panchang] (lines 153-172). *)
Definition while_days := Handler.while_days scrape_panchang_for_day failed_message.

(** The handler (lines 133-175). *)
Definition get_panchang :=
  Handler.get_panchang scrape_panchang_for_day
    "Missing required parameters (start_date, end_date, location)."
    "Invalid date format. Use THAT-MM-DD."
    failed_message.
End Scraper.

End Api.

(** ** [app.py] *)

Module App.

(** *** The row helper ([get_value_from_row], lines 64-70) *)

Fixpoint get_value_from_row (rows : list Tag) (row_name : string) : string :=
  match rows with
  | [] => "Not Found"
  | row :: rest =>
      match find_class row "dpLabel" with
      | Some label_element =>
          if contains row_name (tag_text label_element) then
            match find_class row "dpValue" with
            | Some value_element => strip (tag_text value_element)
            | None => "Not Found"
            end
          else get_value_from_row rest row_name
      | None => get_value_from_row rest row_name
      end
  end.

(** The two Tag operations the row helper calls, as an interface whose
    operations may raise, and the helper written against it. The helper
    has no handler of its own: what an operation raises leaves the helper. *)
Record RowOps : Type := mkRowOps {
  op_find_class : Tag → string → outcome (option Tag);
  op_text : Tag → outcome string
}.

(** BeautifulSoup's own operations: they never raise. *)
Definition bs4_row_ops : RowOps := {|
  op_find_class t cls := Ok (find_class t cls);
  op_text t := Ok (tag_text t)
|}.

Fixpoint get_value_from_row_with (ops : RowOps) (rows : list Tag) (row_name : string)
  : outcome string :=
  match rows with
  | [] => Ok "Not Found"
  | row :: rest =>
      do! label_element ← op_find_class ops row "dpLabel";
      match label_element with
      | Some label_element =>
          do! label_text ← op_text ops label_element;
          if contains row_name label_text then
            do! value_element ← op_find_class ops row "dpValue";
            match value_element with
            | Some value_element =>
                do! value_text ← op_text ops value_element;
                Ok (strip value_text)
            | None => Ok "Not Found"
            end
          else get_value_from_row_with ops rest row_name
      | None => get_value_from_row_with ops rest row_name
      end
  end.

Section Scraper.
Context `{Platform}.

(** Lines 52-80. *)
Definition scrape_soup (soup : Tag) (date_obj : date)
  : option (gmap string string) :=
  match find soup "div" "dpPanchang" None with
  | None => None
  | Some panchang_table =>
      let rows := find_all_class panchang_table "dpRow" in
      let data : gmap string string := {[ "date" := strftime date_obj "%Y-%m-%d" ]} in
      let data := <["sunrise" := get_value_from_row rows "Sunrise"]> data in
      let data := <["sunset" := get_value_from_row rows "Sunset"]> data in
      let data := <["tithi" := get_value_from_row rows "Tithi"]> data in
      let data := <["nakshatra" := get_value_from_row rows "Nakshatra"]> data in
      let data := <["yoga" := get_value_from_row rows "Yoga"]> data in
      let data := <["karana" := get_value_from_row rows "Karana"]> data in
      Some data
  end.

Definition geoname_id : string := "1261481".

Definition url_for (date_str_for_url : string) : string :=
  "https://www.drikpanchang.com/panchang/day-panchang.html?geoname-id="
    ++ geoname_id ++ "&date=" ++ date_str_for_url.

Definition scrape_panchang_for_day
    (date_obj : date) (location_str : string) (trace : list string)
  : option (gmap string string) * list string :=
  let date_str_for_url := strftime date_obj "%d/%m/%Y" in
  let url := url_for date_str_for_url in
  let attempt :=
    do! response ← requests_get trace url;
    do! _ ← raise_for_status response;
    let soup := soup_of (html_parser (text response)) in
    Ok (scrape_soup soup date_obj) in
  (match attempt with
   | Ok day_data => day_data
   | Raise e =>
       if is_request_exception e
       then None                 (* except RequestException *)
       else None                 (* except Exception *)
   end, (trace ++ [url])%list).

(** Lines 52-80 and the whole function once more, over row operations
    that may raise: a raise in the helper ends the [try] block, and the
    handlers of lines 82-87 turn it into [None]. *)
Definition scrape_soup_with (ops : RowOps) (soup : Tag) (date_obj : date)
  : outcome (option (gmap string string)) :=
  match find soup "div" "dpPanchang" None with
  | None => Ok None
  | Some panchang_table =>
      let rows := find_all_class panchang_table "dpRow" in
      let data : gmap string string := {[ "date" := strftime date_obj "%Y-%m-%d" ]} in
      do! sunrise ← get_value_from_row_with ops rows "Sunrise";
      let data := <["sunrise" := sunrise]> data in
      do! sunset ← get_value_from_row_with ops rows "Sunset";
      let data := <["sunset" := sunset]> data in
      do! tithi ← get_value_from_row_with ops rows "Tithi";
      let data := <["tithi" := tithi]> data in
      do! nakshatra ← get_value_from_row_with ops rows "Nakshatra";
      let data := <["nakshatra" := nakshatra]> data in
      do! yoga ← get_value_from_row_with ops rows "Yoga";
      let data := <["yoga" := yoga]> data in
      do! karana ← get_value_from_row_with ops rows "Karana";
      let data := <["karana" := karana]> data in
      Ok (Some data)
  end.

Definition scrape_panchang_for_day_with (ops : RowOps)
    (date_obj : date) (location_str : string) (trace : list string)
  : option (gmap string string) * list string :=
  let date_str_for_url := strftime date_obj "%d/%m/%Y" in
  let url := url_for date_str_for_url in
  let attempt :=
    do! response ← requests_get trace url;
    do! _ ← raise_for_status response;
    let soup := soup_of (html_parser (text response)) in
    scrape_soup_with ops soup date_obj in
  (match attempt with
   | Ok day_data => day_data
   | Raise e =>
       if is_request_exception e
       then None                 (* except RequestException *)
       else None                 (* except Exception *)
   end, (trace ++ [url])%list).

Definition failed_message : string := "Failed to retrieve data for this day.".

(** The loop of [get_panchang] (lines 109-127). *)
Definition while_days := Handler.while_days scrape_panchang_for_day failed_message.

(** The handler (lines 91-129). *)
Definition get_panchang :=
  Handler.get_panchang scrape_panchang_for_day
    "Missing required parameters"
    "Invalid date format. Use YYYY-MM-DD."
    failed_message.
End Scraper.

End App.


(** ** A sample platform

    A concrete calendar, network and parser to run the model on: the
    proleptic Gregorian calendar of [datetime], [strptime] and [strftime]
    for the two formats the code uses, and a network and parser given as
    tables. *)

Module Sample.

Local Open Scope Z_scope.

Definition is_leap (y : Z) : bool :=
  (y mod 4 =? 0) && (negb (y mod 100 =? 0) || (y mod 400 =? 0)).

Definition days_in_month (y m : Z) : Z :=
  if m =? 2 then (if is_leap y then 29 else 28)
  else if (m =? 4) || (m =? 6) || (m =? 9) || (m =? 11) then 30
  else 31.

Definition days_before_year (y : Z) : Z :=
  let y1 := y - 1 in y1 * 365 + y1 / 4 - y1 / 100 + y1 / 400.

Definition days_before_month (y m : Z) : Z :=
  fold_right Z.add 0 (map (days_in_month y) (seqZ 1 (m - 1))).

(** [date(y, m, d)], when it names a day. *)
Definition ymd (y m d : Z) : option date :=
  if (1 <=? y) && (y <=? 9999) && (1 <=? m) && (m <=? 12)
     && (1 <=? d) && (d <=? days_in_month y m)
  then fromordinal (days_before_year y + days_before_month y m + d)
  else None.

(** [(d.year, d.month, d.day)] *)
Definition to_ymd (d : date) : Z * Z * Z :=
  let n := toordinal d - 1 in
  let n400 := n / 146097 in let n := n mod 146097 in
  let n100 := n / 36524 in let n := n mod 36524 in
  let n4 := n / 1461 in let n := n mod 1461 in
  let n1 := n / 365 in let n := n mod 365 in
  let year := n400 * 400 + 1 + n100 * 100 + n4 * 4 + n1 in
  if (n1 =? 4) || (n100 =? 4) then (year - 1, 12, 31)
  else
    let month := (n + 50) / 32 in
    let preceding := days_before_month year month in
    if n <? preceding
    then (year, month - 1, n - (preceding - days_in_month year (month - 1)) + 1)
    else (year, month, n - preceding + 1).

Definition digit (n : Z) : ascii := ascii_of_nat (48 + Z.to_nat (n mod 10)).

Definition pad2 (n : Z) : string :=
  String (digit (n / 10)) (String (digit n) "").

Definition pad4 (n : Z) : string :=
  String (digit (n / 1000)) (String (digit (n / 100)) (pad2 n)).

Definition sample_strftime (d : date) (fmt : string) : string :=
  let '(y, m, dd) := to_ymd d in
  if String.eqb fmt "%Y-%m-%d" then (pad4 y ++ "-" ++ pad2 m ++ "-" ++ pad2 dd)%string
  else if String.eqb fmt "%d/%m/%Y" then (pad2 dd ++ "/" ++ pad2 m ++ "/" ++ pad4 y)%string
  else ""%string.

Definition digit_val (c : ascii) : option Z :=
  let n := nat_of_ascii c in
  if (48 <=? n)%nat && (n <=? 57)%nat then Some (Z.of_nat n - 48) else None.

(** One or two digits of a month or a day, then the rest of the text. The
    two-digit readings are tried first, as the pattern of [strptime] does. *)
Definition read_number (limit : Z) (s : string) : option (Z * string) :=
  match s with
  | String a (String b rest) =>
      match digit_val a, digit_val b with
      | Some x, Some y =>
          if (1 <=? x * 10 + y) && (x * 10 + y <=? limit) then Some (x * 10 + y, rest)
          else if 1 <=? x then Some (x, String b rest) else None
      | Some x, None => if 1 <=? x then Some (x, String b rest) else None
      | None, _ => None
      end
  | String a rest =>
      match digit_val a with
      | Some x => if 1 <=? x then Some (x, rest) else None
      | None => None
      end
  | EmptyString => None
  end.

(** [strptime(s, '%Y-%m-%d')]: four digits, a dash, a month, a dash, a day
    (which may be written with a leading space), and nothing after it. *)
Definition sample_strptime (s fmt : string) : option date :=
  if negb (String.eqb fmt "%Y-%m-%d") then None else
  match s with
  | String a (String b (String c (String d (String "-" rest)))) =>
      y1 ← digit_val a; y2 ← digit_val b; y3 ← digit_val c; y4 ← digit_val d;
      '(m, rest) ← read_number 12 rest;
      match rest with
      | String "-" rest =>
          '(dd, rest) ←
             match rest with
             | String " " (String a r) =>
                 x ← digit_val a; if 1 <=? x then Some (x, r) else None
             | _ => read_number 31 rest
             end;
          match rest with
          | EmptyString => ymd (y1 * 1000 + y2 * 100 + y3 * 10 + y4) m dd
          | _ => None
          end
      | _ => None
      end
  | _ => None
  end.

Definition platform (net : list string → string → outcome response)
    (parser : string → list node) : Platform := {|
  strptime := sample_strptime;
  strftime := sample_strftime;
  requests_get := net;
  html_parser := parser
|}.

End Sample.

(** ** Sample documents *)

Module Docs.

Definition key (k : string) : node := Elem "div" ["dpTableCell"; "dpTableKey"] [Text k].
Definition value (v : string) : node :=
  Elem "div" ["dpTableCell"; "dpTableValue"] [Text v].
Definition row (k v : string) : node :=
  Elem "div" ["dpTableRow"] [key k; Text " "; value v].

(** The canonical card with the six rows. *)
Definition card_page : list node :=
  [Elem "html" [] [Elem "body" []
    [Elem "div" ["dpPanchangCard"]
       [row "Sunrise" "06:11 AM"; row "Sunset" "05:20 PM"; row "Tithi" "Panchami";
        row "Nakshatra" "Rohini"; row "Yoga" "Shubha"; row "Karana" "Bava"]]]].

(** The card with the value of the Tithi row missing. *)
Definition card_without_tithi_value : list node :=
  [Elem "html" [] [Elem "body" []
    [Elem "div" ["dpPanchangCard"]
       [row "Sunrise" "06:11 AM"; row "Sunset" "05:20 PM";
        Elem "div" ["dpTableRow"] [key "Tithi"];
        row "Nakshatra" "Rohini"; row "Yoga" "Shubha"; row "Karana" "Bava"]]]].

(** No card; the rows sit in a plain [div], the first one inside a [span]. *)
Definition plain_page : list node :=
  [Elem "html" [] [Elem "body" []
    [Elem "div" ["content"]
       [Elem "span" [] [row "Sunrise" "06:11 AM"]; row "Sunset" "05:20 PM";
        row "Tithi" "Panchami"; row "Nakshatra" "Rohini"; row "Yoga" "Shubha";
        row "Karana" "Bava"]]]].

(** No card and only two rows. *)
Definition short_page : list node :=
  [Elem "html" [] [Elem "body" []
    [Elem "div" ["content"] [row "Sunrise" "06:11 AM"; row "Sunset" "05:20 PM"]]]].

(** No card; a Sunrise label and its value inside a [span], with no [div]
    around them. *)
Definition span_page : list node :=
  [Elem "span" [] [key "Sunrise"; value "06:11 AM"]].

(** No card and no Sunrise label. *)
Definition blank_page : list node :=
  [Elem "html" [] [Elem "body" [] [Elem "p" [] [Text "Access denied"]]]].

(** A card with nothing in it. *)
Definition empty_card_page : list node :=
  [Elem "html" [] [Elem "body" [] [Elem "div" ["dpPanchangCard"] []]]].


(** The tag at a path of a page, and the first day of 2024. *)
Definition tag_in (page : list node) (p : list nat) : Tag :=
  mkTag (tag_root (soup_of page)) p.

Definition new_year : date := mkdate 738886 eq_refl.

(** Row operations that fail when asked for the text of the Sunset label. *)
Definition faulty_row_ops : App.RowOps := {|
  App.op_find_class t cls := Ok (find_class t cls);
  App.op_text t :=
    if String.eqb (tag_text t) "Sunset"
    then Raise (OtherError "broken text")
    else Ok (tag_text t)
|}.


(** A network that serves one page for every request, and a parser that
    knows the pages by name. *)
Definition serve (page : string) : list string → string → outcome response :=
  λ _ _, Ok (mkResponse 200 page).

Definition parse (page : string) : list node :=
  if String.eqb page "card" then card_page
  else if String.eqb page "card_without_tithi_value" then card_without_tithi_value
  else if String.eqb page "plain" then plain_page
  else if String.eqb page "short" then short_page
  else if String.eqb page "span" then span_page
  else blank_page.

Definition platform (page : string) : Platform := Sample.platform (serve page) parse.

(** A page for [app.py]: a container with a row that has no label, the
    Sunrise row, and a Sunset row that has no value. *)
Definition rows_page : list node :=
  [Elem "div" ["dpPanchang"]
     [Elem "div" ["dpRow"] [Elem "span" ["dpValue"] [Text "stray"]];
      Elem "div" ["dpRow"]
        [Elem "span" ["dpLabel"] [Text "Sunrise"];
         Elem "span" ["dpValue"] [Text " 06:11 AM "]];
      Elem "div" ["dpRow"] [Elem "span" ["dpLabel"] [Text "Sunset"]]]].


(** A card laid out flat, labels and values side by side under the card;
    the value of Tithi is missing, so the Tithi label is followed by the
    Nakshatra label. *)
Definition flat_card_page : list node :=
  [Elem "div" ["dpPanchangCard"]
     [key "Sunrise"; value "06:11 AM"; key "Sunset"; value "05:20 PM";
      key "Tithi"; key "Nakshatra"; value "Rohini";
      key "Yoga"; value "Shubha"; key "Karana"; value "Bava"]].

(** No card; a Sunrise label whose only child is a [script] holding the
    string, and its value, inside a [div]. *)
Definition script_label_page : list node :=
  [Elem "div" ["content"]
     [Elem "div" ["dpTableKey"] [Elem "script" [] [Special Script "Sunrise"]];
      value "06:11 AM"]].

(** A request in query-string form. *)
Definition request (start_date end_date location : string) : gmap string string :=
  <["start_date" := start_date]> (<["end_date" := end_date]> {[ "location" := location ]}).

End Docs.

(** * Properties *)

(** ** Text *)

Lemma startswith_spec k s :
  startswith k s = true ↔ ∃ b, s = k ++ b.
Proof.
  revert s. induction k as [|a k IH]; intros s; simpl.
  - split; eauto.
  - destruct s as [|c s].
    + split; [discriminate|]. intros [b Hb]. discriminate.
    + destruct (Ascii.eqb_spec a c) as [->|Hne].
      * rewrite IH. split; intros [b Hb]; exists b.
        -- by rewrite Hb.
        -- by injection Hb.
      * split; [discriminate|]. intros [b Hb]. injection Hb as ? ?. congruence.
Qed.

(** [k in s] holds exactly when [s] is some text, then [k], then some text. *)
Lemma contains_spec k s :
  contains k s = true ↔ ∃ a b, s = a ++ k ++ b.
Proof.
  induction s as [|c s IH]; simpl.
  - rewrite orb_false_r, startswith_spec. split.
    + intros [b Hb]. by exists "", b.
    + intros (a & b & Hab). destruct a; [by exists b|discriminate].
  - rewrite orb_true_iff, startswith_spec, IH. split.
    + intros [[b Hb]|(a & b & Hab)].
      * by exists "", b.
      * exists (String c a), b. by rewrite Hab.
    + intros (a & b & Hab). destruct a as [|c' a].
      * left. by exists b.
      * right. exists a, b. by injection Hab.
Qed.

Local Open Scope list_scope.

(** ** Dates *)

Lemma date_bounds (d : date) : (1 ≤ toordinal d ≤ MAXORDINAL)%Z.
Proof.
  pose proof (date_in_range d) as Hd. unfold in_range in Hd.
  apply andb_true_iff in Hd as [?%Z.leb_le ?%Z.leb_le]. lia.
Qed.

Lemma date_eq (a b : date) : toordinal a = toordinal b → a = b.
Proof.
  destruct a as [x Hx], b as [y Hy]. simpl. intros ->.
  f_equal. apply (proof_irrel _ _).
Qed.

Lemma fromordinal_Some o d : fromordinal o = Some d → toordinal d = o.
Proof.
  unfold fromordinal. destruct (Sumbool.sumbool_of_bool _); [|discriminate].
  by intros [= <-].
Qed.

Lemma fromordinal_in_range o :
  (1 ≤ o ≤ MAXORDINAL)%Z → ∃ d, fromordinal o = Some d ∧ toordinal d = o.
Proof.
  intros Ho. unfold fromordinal.
  destruct (Sumbool.sumbool_of_bool _) as [Hr|Hr]; [eauto|].
  unfold in_range in Hr. apply andb_false_iff in Hr as [?%Z.leb_gt|?%Z.leb_gt]; lia.
Qed.

Lemma fromordinal_out_of_range o :
  ¬ (1 ≤ o ≤ MAXORDINAL)%Z → fromordinal o = None.
Proof.
  intros Ho. destruct (fromordinal o) as [d|] eqn:Hd; [|done].
  apply fromordinal_Some in Hd as <-. destruct Ho. apply date_bounds.
Qed.

(** The next day exists for every day but the last. *)
Lemma add_days_next d :
  (toordinal d < MAXORDINAL)%Z →
  ∃ d', add_days d 1 = Ok d' ∧ toordinal d' = (toordinal d + 1)%Z.
Proof.
  intros Hd. pose proof (date_bounds d).
  destruct (fromordinal_in_range (toordinal d + 1)) as (d' & Hd' & ?); [lia|].
  exists d'. unfold add_days. by rewrite Hd'.
Qed.

(** [date.max + timedelta(days=1)] raises. *)
Lemma add_days_overflow d :
  toordinal d = MAXORDINAL → add_days d 1 = Raise OverflowError.
Proof.
  intros Hd. unfold add_days. rewrite fromordinal_out_of_range; [done|].
  rewrite Hd. lia.
Qed.

Lemma add_days_Ok d d' : add_days d 1 = Ok d' → toordinal d' = (toordinal d + 1)%Z.
Proof.
  unfold add_days. destruct (fromordinal _) eqn:Hd; [|discriminate].
  intros [= <-]. by apply fromordinal_Some.
Qed.

(** ** The loop over the days *)

Section HandlerFacts.
Context `{Platform}.
Variable scrape :
  date → string → list string → option (gmap string string) * list string.
Variable missing_message invalid_message failed_message : string.

Abbreviation while_days := (Handler.while_days scrape failed_message).
Abbreviation day_entry := (Handler.day_entry failed_message).
Abbreviation get_panchang :=
  (Handler.get_panchang scrape missing_message invalid_message failed_message).

(** One turn of the loop. *)
Lemma while_days_unfold current_date end_date location acc trace :
  while_days current_date end_date location acc trace =
  if date_le current_date end_date then
    match add_days current_date 1 with
    | Ok next =>
        while_days next end_date location
          (acc ++ [day_entry current_date (scrape current_date location trace).1])
          (scrape current_date location trace).2
    | Raise e => (Raise e, (scrape current_date location trace).2)
    end
  else (Ok acc, trace).
Proof.
  funelim (Handler.while_days scrape failed_message
             current_date end_date location acc trace).
  all: try match goal with E : date_le _ _ = _ |- _ => rewrite E end.
  all: try match goal with E : add_days _ _ = _ |- _ => rewrite E end.
  all: done.
Qed.

(** An inverted range: the loop body never runs. *)
Lemma while_days_inverted current_date end_date location acc trace :
  (toordinal end_date < toordinal current_date)%Z →
  while_days current_date end_date location acc trace = (Ok acc, trace).
Proof.
  intros Hlt. rewrite while_days_unfold. unfold date_le.
  by rewrite (proj2 (Z.leb_gt _ _) Hlt).
Qed.

(** A range that ends on [date.max]: after the last day has been scraped,
    stepping to the next day raises and the list is lost. *)
Lemma while_days_overflow current_date end_date location acc trace :
  toordinal end_date = MAXORDINAL →
  (while_days current_date end_date location acc trace).1 = Raise OverflowError.
Proof.
  intros Hend.
  remember (Z.to_nat (MAXORDINAL - toordinal current_date)) as n eqn:Hn.
  revert current_date acc trace Hn.
  induction n as [|n IH]; intros cur acc trace Hn;
    pose proof (date_bounds cur) as Hcur;
    rewrite while_days_unfold; unfold date_le;
    rewrite (proj2 (Z.leb_le _ _)) by lia.
  - rewrite add_days_overflow by lia. done.
  - destruct (add_days_next cur) as (next & -> & Hnext); [lia|].
    apply IH. lia.
Qed.

Section Dated.
(** Every record the day scraper returns carries the day it was asked
    for. *)
Hypothesis scrape_dated : ∀ d location trace data,
  (scrape d location trace).1 = Some data →
  data !! "date" = Some (strftime d "%Y-%m-%d").

Lemma day_entry_date d day_data :
  (∀ data, day_data = Some data → data !! "date" = Some (strftime d "%Y-%m-%d")) →
  day_entry d day_data !! "date" = Some (strftime d "%Y-%m-%d").
Proof.
  intros Hd. unfold Handler.day_entry.
  destruct day_data as [data|].
  - case_decide; [|by apply Hd]. by simplify_map_eq.
  - by simplify_map_eq.
Qed.

(** A range that ends before [date.max]: the loop returns one entry for
    each day from [current_date] to [end_date], in that order, after
    what was already in the list. *)
Lemma while_days_in_range current_date end_date location acc trace :
  (toordinal end_date < MAXORDINAL)%Z →
  ∃ out trace',
    while_days current_date end_date location acc trace = (Ok (acc ++ out), trace') ∧
    length out = Z.to_nat (toordinal end_date - toordinal current_date + 1) ∧
    ∀ (i : nat) entry, out !! i = Some entry →
      ∃ d, toordinal d = (toordinal current_date + Z.of_nat i)%Z ∧
           entry !! "date" = Some (strftime d "%Y-%m-%d").
Proof.
  intros Hend.
  remember (Z.to_nat (toordinal end_date - toordinal current_date + 1)) as n eqn:Hn.
  revert current_date acc trace Hn.
  induction n as [|n IH]; intros cur acc trace Hn;
    rewrite while_days_unfold; unfold date_le.
  - rewrite (proj2 (Z.leb_gt _ _)) by lia.
    exists [], trace. rewrite app_nil_r. split_and!; [done..|].
    intros i entry Hi. by rewrite lookup_nil in Hi.
  - rewrite (proj2 (Z.leb_le _ _)) by lia.
    destruct (add_days_next cur) as (next & -> & Hnext); [lia|].
    destruct (IH next
      (acc ++ [day_entry cur (scrape cur location trace).1])
      (scrape cur location trace).2) as (out & trace' & -> & Hlen & Hout); [lia|].
    exists (day_entry cur (scrape cur location trace).1 :: out), trace'.
    rewrite <- app_assoc. split_and!; [done|simpl; lia|].
    intros [|i] entry Hi; simpl in Hi.
    + injection Hi as <-. exists cur. split; [lia|].
      apply day_entry_date. intros data. apply scrape_dated.
    + destruct (Hout i entry Hi) as (d & Hd & Hentry).
      exists d. split; [lia|done].
Qed.
End Dated.

(** If the day scraper does not look at the location, neither does the
    loop. *)
Lemma while_days_location current_date end_date l1 l2 acc trace :
  (∀ d trace, scrape d l1 trace = scrape d l2 trace) →
  while_days current_date end_date l1 acc trace =
  while_days current_date end_date l2 acc trace.
Proof.
  intros Hloc.
  remember (Z.to_nat (toordinal end_date - toordinal current_date + 1)) as n eqn:Hn.
  revert current_date acc trace Hn.
  induction n as [n IH] using lt_wf_ind; intros cur acc trace Hn.
  rewrite (while_days_unfold cur end_date l1), (while_days_unfold cur end_date l2).
  unfold date_le. destruct (Z.leb_spec (toordinal cur) (toordinal end_date)); [|done].
  rewrite Hloc. destruct (add_days cur 1) as [next|e] eqn:Hnext; [|done].
  apply add_days_Ok in Hnext.
  eapply IH; [|reflexivity]. lia.
Qed.

(** *** The handler *)

(** A parameter that is absent or empty: the first check answers. *)
Lemma get_panchang_missing args trace :
  forallb truthy [args !! "start_date"; args !! "end_date"; args !! "location"] = false →
  get_panchang args trace = (Ok (ErrorBody missing_message, 400%Z), trace).
Proof. intros Hall. unfold Handler.get_panchang. by rewrite Hall. Qed.

(** All three present, one of the dates not parsed: the second check
    answers. *)
Lemma get_panchang_invalid args trace s e :
  forallb truthy [args !! "start_date"; args !! "end_date"; args !! "location"] = true →
  args !! "start_date" = Some s →
  args !! "end_date" = Some e →
  strptime s "%Y-%m-%d" = None ∨ strptime e "%Y-%m-%d" = None →
  get_panchang args trace = (Ok (ErrorBody invalid_message, 400%Z), trace).
Proof.
  intros Hall Hs He Hbad. unfold Handler.get_panchang.
  rewrite Hall, Hs, He. simpl.
  destruct Hbad as [->| ->]; [done|].
  by destruct (strptime s _).
Qed.

(** All three present and both dates parsed: the loop runs. *)
Lemma get_panchang_valid args trace s e l sd ed :
  forallb truthy [args !! "start_date"; args !! "end_date"; args !! "location"] = true →
  args !! "start_date" = Some s →
  args !! "end_date" = Some e →
  args !! "location" = Some l →
  strptime s "%Y-%m-%d" = Some sd →
  strptime e "%Y-%m-%d" = Some ed →
  get_panchang args trace =
    (do! all_panchang_data ← (while_days sd ed l [] trace).1;
     Ok (PanchangBody all_panchang_data, 200%Z),
     (while_days sd ed l [] trace).2).
Proof.
  intros Hall Hs He Hl Hsd Hed. unfold Handler.get_panchang.
  rewrite Hall, Hs, He, Hl. simpl. by rewrite Hsd, Hed.
Qed.
End HandlerFacts.

(** ** Documents *)



Lemma enclosing_S r p k :
  enclosing r p (S k) = mkTag r (take k p) :: enclosing r p k.
Proof.
  unfold enclosing. by rewrite seq_S, reverse_app.
Qed.

Lemma parents_enclosing t :
  parents t = enclosing (tag_root t) (tag_path t) (length (tag_path t)).
Proof. done. Qed.

Lemma parents_take r p k :
  (k ≤ length p)%nat → parents (mkTag r (take k p)) = enclosing r p k.
Proof.
  intros Hk. unfold parents, enclosing. simpl.
  rewrite length_take_le by done.
  apply map_ext_in. intros j Hj%list_elem_of_In%elem_of_reverse%elem_of_seq.
  rewrite take_take. f_equal. f_equal. lia.
Qed.

(** The loop of lines 60-65 stops at the nearest enclosing [div] that holds
    five labels or more, and leaves [panchang_card] empty if there is
    none. *)
Lemma walk_up_enclosing r p k :
  (k ≤ length p)%nat →
  Api.walk_up (head (filter (λ x, tag_test (named "div") x = true) (enclosing r p k))) =
  head (filter (λ x, (5 ≤ length (Api.labels x))%nat)
          (filter (λ x, tag_test (named "div") x = true) (enclosing r p k))).
Proof.
  induction k as [|k IH]; intros Hk.
  - simpl. by simp walk_up.
  - rewrite enclosing_S.
    destruct (decide (tag_test (named "div") (mkTag r (take k p)) = true)) as [Hdiv|Hdiv].
    + rewrite filter_cons_True by exact Hdiv. simpl. simp walk_up.
      fold (Api.labels (mkTag r (take k p))).
      destruct (Nat.leb_spec 5 (length (Api.labels (mkTag r (take k p))))) as [Hen|Hen].
      * by rewrite filter_cons_True.
      * rewrite filter_cons_False by lia.
        unfold find_parent. rewrite parents_take by lia. apply IH. lia.
    + rewrite filter_cons_False by exact Hdiv. apply IH. lia.
Qed.

Lemma walk_up_spec s :
  Api.walk_up (find_parent s "div") =
  head (filter (λ x, (5 ≤ length (Api.labels x))%nat) (Api.div_parents s)).
Proof.
  unfold find_parent, Api.div_parents. rewrite parents_enclosing.
  by apply walk_up_enclosing.
Qed.

(** What [find_all] returns lies in the same document, below the tag that
    was searched, and passes the test. *)
Lemma find_all_elem x t name cls :
  x ∈ find_all t name cls →
  tag_root x = tag_root t ∧ tag_test (matches name cls) x = true.
Proof.
  unfold find_all, tag_descendants. intros [Htest Hx]%list_elem_of_filter.
  split; [|done].
  destruct (tag_node t); [|by apply elem_of_nil in Hx].
  by apply list_elem_of_fmap in Hx as (d & -> & _).
Qed.

Lemma find_elem t name cls str x :
  find t name cls str = Some x →
  x ∈ find_all t name cls ∧ string_is str x = true.
Proof.
  unfold find. intros Hx%head_Some_elem_of.
  by apply list_elem_of_filter in Hx as [? ?].
Qed.

(** ** Finding the card *)

Lemma resolved_anchor_card soup card :
  find soup "div" "dpPanchangCard" None = Some card →
  Api.resolved_anchor soup = Some card.
Proof. intros Hc. unfold Api.resolved_anchor, Api.find_panchang_card. by rewrite Hc. Qed.

Lemma find_panchang_card_sunrise soup s :
  find soup "div" "dpPanchangCard" None = None →
  find soup "div" "dpTableKey" (Some "Sunrise") = Some s →
  Api.find_panchang_card soup =
    Api.Card (match head (filter (λ x, (5 ≤ length (Api.labels x))%nat) (Api.div_parents s)) with
              | Some a => Some a
              | None => head (Api.div_parents s)
              end).
Proof.
  intros Hc Hs. unfold Api.find_panchang_card. rewrite Hc, Hs. simpl.
  rewrite walk_up_spec. by destruct (head _).
Qed.

Lemma resolved_anchor_sunrise soup s :
  find soup "div" "dpPanchangCard" None = None →
  find soup "div" "dpTableKey" (Some "Sunrise") = Some s →
  Api.resolved_anchor soup =
    match head (filter (λ x, (5 ≤ length (Api.labels x))%nat) (Api.div_parents s)) with
    | Some a => Some a
    | None => head (Api.div_parents s)
    end.
Proof.
  intros Hc Hs. unfold Api.resolved_anchor.
  rewrite (find_panchang_card_sunrise _ _ Hc Hs).
  destruct (head (filter _ _)); [done|]. by destruct (head _).
Qed.

Lemma find_panchang_card_nothing soup :
  find soup "div" "dpPanchangCard" None = None →
  find soup "div" "dpTableKey" (Some "Sunrise") = None →
  Api.find_panchang_card soup = Api.ReturnedNone.
Proof. intros Hc Hs. unfold Api.find_panchang_card. by rewrite Hc, Hs. Qed.

(** Without an anchor the parsed document never yields a record. *)
Lemma scrape_soup_no_anchor `{Platform} ops soup d :
  Api.resolved_anchor soup = None →
  Api.scrape_soup ops soup d = Ok None ∨ Api.scrape_soup ops soup d = Raise NameError.
Proof.
  unfold Api.resolved_anchor, Api.scrape_soup.
  destruct (Api.find_panchang_card soup) as [|[card|]]; [by left|done|by right].
Qed.

(** ** The per-key helper *)







(** ** The record of a day *)

Section RecordFacts.
Context `{Platform}.

(** With an anchor, the parsed document yields the record of the date and
    the six fields, each field being what the helper returns for its key. *)
Lemma scrape_soup_record ops soup d card :
  Api.resolved_anchor soup = Some card →
  ∃ data,
    Api.scrape_soup ops soup d = Ok (Some data) ∧
    data !! "date" = Some (strftime d "%Y-%m-%d") ∧
    (∀ key field, (key, field) ∈ Api.target_keys →
       data !! field = Some (Api.get_value_from_table ops card key)) ∧
    dom data = ({["date"; "sunrise"; "sunset"; "tithi"; "nakshatra"; "yoga"; "karana"]}
                  : gset string).
Proof.
  unfold Api.resolved_anchor, Api.scrape_soup.
  destruct (Api.find_panchang_card soup) as [|[c|]]; [done| |done].
  intros [= ->]. eexists. split; [by case_bool_decide|].
  split; [by simplify_map_eq|]. split.
  - intros key field Hk. unfold Api.target_keys in Hk.
    repeat (apply elem_of_cons in Hk as [[= -> ->]|Hk]; [by simplify_map_eq|]).
    by apply elem_of_nil in Hk.
  - rewrite !dom_insert_L, dom_singleton_L. set_solver.
Qed.

Lemma scrape_soup_dated ops soup d data :
  Api.scrape_soup ops soup d = Ok (Some data) →
  data !! "date" = Some (strftime d "%Y-%m-%d").
Proof.
  intros Hd. destruct (Api.resolved_anchor soup) as [card|] eqn:Ha.
  - destruct (scrape_soup_record ops soup d card Ha) as (data' & Hd' & Hdate & _).
    congruence.
  - destruct (scrape_soup_no_anchor ops soup d Ha); congruence.
Qed.

(** The day function: one request, and [None] for every failure. *)
Lemma scrape_day_unfold ops d location trace :
  Api.scrape_panchang_for_day_with ops d location trace =
  (match requests_get trace (Api.url_for (strftime d "%d/%m/%Y")) with
   | Ok response =>
       match raise_for_status response with
       | Ok _ =>
           match Api.scrape_soup ops (soup_of (html_parser (text response))) d with
           | Ok day_data => day_data
           | Raise _ => None
           end
       | Raise _ => None
       end
   | Raise _ => None
   end, trace ++ [Api.url_for (strftime d "%d/%m/%Y")]).
Proof.
  unfold Api.scrape_panchang_for_day_with. f_equal.
  destruct (requests_get _ _) as [response|e]; simpl; [|by destruct e].
  destruct (raise_for_status response) as [[]|e]; simpl; [|by destruct e].
  destruct (Api.scrape_soup _ _ _) as [r|e]; [done|by destruct e].
Qed.

Lemma api_scrape_dated ops d location trace data :
  (Api.scrape_panchang_for_day_with ops d location trace).1 = Some data →
  data !! "date" = Some (strftime d "%Y-%m-%d").
Proof.
  rewrite scrape_day_unfold. simpl.
  destruct (requests_get _ _) as [response|]; [|done].
  destruct (raise_for_status response); [|done].
  destruct (Api.scrape_soup _ _ _) as [r|] eqn:Hr; [|done].
  intros ->. by eapply scrape_soup_dated.
Qed.

Lemma app_scrape_dated d location trace data :
  (App.scrape_panchang_for_day d location trace).1 = Some data →
  data !! "date" = Some (strftime d "%Y-%m-%d").
Proof.
  unfold App.scrape_panchang_for_day. simpl.
  destruct (requests_get _ _) as [response|e]; simpl; [|by destruct e].
  destruct (raise_for_status response) as [[]|e]; simpl; [|by destruct e].
  unfold App.scrape_soup. destruct (find _ _ _ _); [|done].
  intros [= <-]. by simplify_map_eq.
Qed.
End RecordFacts.

(** ** The handler of each file *)

Section Handlers.
Context `{Platform}.

Lemma api_scrape_location d l1 l2 trace :
  Api.scrape_panchang_for_day d l1 trace = Api.scrape_panchang_for_day d l2 trace.
Proof. reflexivity. Qed.

Lemma app_scrape_location d l1 l2 trace :
  App.scrape_panchang_for_day d l1 trace = App.scrape_panchang_for_day d l2 trace.
Proof. reflexivity. Qed.

(** A range that ends before [date.max], in either file: the answer is
    the list with one entry for each day of the range, in order; it is
    empty when the range is inverted. *)
Lemma get_panchang_in_range args trace s e l sd ed :
  args !! "start_date" = Some s → args !! "end_date" = Some e →
  args !! "location" = Some l →
  s ≠ "" → e ≠ "" → l ≠ "" →
  strptime s "%Y-%m-%d" = Some sd → strptime e "%Y-%m-%d" = Some ed →
  (toordinal ed < MAXORDINAL)%Z →
  ∀ handler,
    handler = Api.get_panchang ∨ handler = App.get_panchang →
    ∃ out trace',
      handler args trace = (Ok (PanchangBody out, 200%Z), trace') ∧
      length out = Z.to_nat (toordinal ed - toordinal sd + 1) ∧
      ∀ (i : nat) entry, out !! i = Some entry →
        ∃ d, toordinal d = (toordinal sd + Z.of_nat i)%Z ∧
             entry !! "date" = Some (strftime d "%Y-%m-%d").
Proof.
  intros Hs He Hl Hs' He' Hl' Hsd Hed Hmax handler Hh.
  assert (forallb truthy [args !! "start_date"; args !! "end_date"; args !! "location"]
          = true) as Hall.
  { rewrite Hs, He, Hl. by destruct s, e, l. }
  destruct Hh as [-> | ->].
  - unfold Api.get_panchang.
    rewrite (get_panchang_valid _ _ _ _ _ _ _ _ _ _ _ Hall Hs He Hl Hsd Hed).
    destruct (while_days_in_range Api.scrape_panchang_for_day Api.failed_message
                (api_scrape_dated bs4_ops) sd ed l [] trace Hmax)
      as (out & trace' & -> & Hlen & Hout).
    by exists out, trace'.
  - unfold App.get_panchang.
    rewrite (get_panchang_valid _ _ _ _ _ _ _ _ _ _ _ Hall Hs He Hl Hsd Hed).
    destruct (while_days_in_range App.scrape_panchang_for_day App.failed_message
                app_scrape_dated sd ed l [] trace Hmax)
      as (out & trace' & -> & Hlen & Hout).
    by exists out, trace'.
Qed.

(** A range that ends on [date.max], in either file: the handler raises. *)
Lemma get_panchang_overflow args trace s e l sd ed :
  args !! "start_date" = Some s → args !! "end_date" = Some e →
  args !! "location" = Some l →
  s ≠ "" → e ≠ "" → l ≠ "" →
  strptime s "%Y-%m-%d" = Some sd → strptime e "%Y-%m-%d" = Some ed →
  toordinal ed = MAXORDINAL →
  (Api.get_panchang args trace).1 = Raise OverflowError ∧
  (App.get_panchang args trace).1 = Raise OverflowError.
Proof.
  intros Hs He Hl Hs' He' Hl' Hsd Hed Hmax.
  assert (forallb truthy [args !! "start_date"; args !! "end_date"; args !! "location"]
          = true) as Hall.
  { rewrite Hs, He, Hl. by destruct s, e, l. }
  unfold Api.get_panchang, App.get_panchang.
  rewrite !(get_panchang_valid _ _ _ _ _ _ _ _ _ _ _ Hall Hs He Hl Hsd Hed). simpl.
  by rewrite !while_days_overflow.
Qed.

(** Two requests that differ in a non-empty location get the same answer
    and ask for the same URLs. *)
Lemma get_panchang_location args l1 l2 trace :
  l1 ≠ "" → l2 ≠ "" →
  Api.get_panchang (<["location" := l1]> args) trace =
    Api.get_panchang (<["location" := l2]> args) trace ∧
  App.get_panchang (<["location" := l1]> args) trace =
    App.get_panchang (<["location" := l2]> args) trace.
Proof.
  intros Hl1 Hl2.
  unfold Api.get_panchang, App.get_panchang, Handler.get_panchang.
  rewrite !lookup_insert_eq, !lookup_insert_ne by done.
  assert (truthy (Some l1) = true) as Ht1 by by destruct l1.
  assert (truthy (Some l2) = true) as Ht2 by by destruct l2.
  cbn [forallb]. rewrite Ht1, Ht2.
  destruct (negb _); [done|].
  destruct (_ ≫= _) as [[sd ed]|]; [|done]. simpl.
  by rewrite (while_days_location Api.scrape_panchang_for_day _ sd ed l1 l2),
     (while_days_location App.scrape_panchang_for_day _ sd ed l1 l2).
Qed.
End Handlers.

(** ** The scraper of [app.py] *)

Section AppFacts.
Context `{Platform}.

(** The record of [app.py]: found container, seven keys, each field what
    the row helper gives over the rows of the container. *)
Lemma app_scrape_soup_record soup d table :
  find soup "div" "dpPanchang" None = Some table →
  ∃ data,
    App.scrape_soup soup d = Some data ∧
    data !! "date" = Some (strftime d "%Y-%m-%d") ∧
    (∀ key field, (key, field) ∈ Api.target_keys →
       data !! field =
         Some (App.get_value_from_row (find_all_class table "dpRow") key)) ∧
    dom data = ({["date"; "sunrise"; "sunset"; "tithi"; "nakshatra"; "yoga"; "karana"]}
                  : gset string).
Proof.
  intros Ht. unfold App.scrape_soup. rewrite Ht.
  eexists. split; [done|]. split; [by simplify_map_eq|]. split.
  - intros key field Hk. unfold Api.target_keys in Hk.
    repeat (apply elem_of_cons in Hk as [[= -> ->]|Hk]; [by simplify_map_eq|]).
    by apply elem_of_nil in Hk.
  - rewrite !dom_insert_L, dom_singleton_L. set_solver.
Qed.

Lemma app_scrape_soup_None soup d :
  find soup "div" "dpPanchang" None = None → App.scrape_soup soup d = None.
Proof. intros Ht. unfold App.scrape_soup. by rewrite Ht. Qed.

Lemma app_scrape_day_unfold d location trace :
  (App.scrape_panchang_for_day d location trace).1 =
  match requests_get trace (App.url_for (strftime d "%d/%m/%Y")) with
  | Ok response =>
      match raise_for_status response with
      | Ok _ => App.scrape_soup (soup_of (html_parser (text response))) d
      | Raise _ => None
      end
  | Raise _ => None
  end.
Proof.
  unfold App.scrape_panchang_for_day. simpl.
  destruct (requests_get _ _) as [response|e]; simpl; [|by destruct e].
  destruct (raise_for_status response) as [[]|e]; simpl; [done|by destruct e].
Qed.

(** The row helper stops at the first row whose label has the key. *)
Lemma get_value_from_row_first r1 row r2 label row_name :
  Forall (λ r, ∀ lab, find_class r "dpLabel" = Some lab →
               ¬ ∃ a b, tag_text lab = (a ++ row_name ++ b)%string) r1 →
  find_class row "dpLabel" = Some label →
  (∃ a b, tag_text label = (a ++ row_name ++ b)%string) →
  App.get_value_from_row (r1 ++ row :: r2) row_name =
    match find_class row "dpValue" with
    | Some value_element => strip (tag_text value_element)
    | None => "Not Found"
    end.
Proof.
  intros Hr1 Hlabel Hocc.
  induction Hr1 as [|r r1 Hr _ IH]; simpl.
  - rewrite Hlabel. apply contains_spec in Hocc. by rewrite Hocc.
  - destruct (find_class r "dpLabel") as [lab|]; [|done].
    destruct (contains row_name (tag_text lab)) eqn:Hc; [|done].
    apply contains_spec in Hc. by destruct (Hr lab).
Qed.

Lemma get_value_from_row_none rows row_name :
  Forall (λ r, ∀ lab, find_class r "dpLabel" = Some lab →
               ¬ ∃ a b, tag_text lab = (a ++ row_name ++ b)%string) rows →
  App.get_value_from_row rows row_name = "Not Found".
Proof.
  induction 1 as [|r rows Hr _ IH]; simpl; [done|].
  destruct (find_class r "dpLabel") as [lab|]; [|done].
  destruct (contains row_name (tag_text lab)) eqn:Hc; [|done].
  apply contains_spec in Hc. by destruct (Hr lab).
Qed.

(** With BeautifulSoup's own operations, the helper and the scraper over
    operations that may raise are the helper and the scraper above. *)
Lemma get_value_from_row_with_bs4 rows row_name :
  App.get_value_from_row_with App.bs4_row_ops rows row_name =
  Ok (App.get_value_from_row rows row_name).
Proof.
  induction rows as [|row rows IH]; simpl; [done|].
  destruct (find_class row "dpLabel") as [lab|]; [|done].
  destruct (contains row_name (tag_text lab)); [|done].
  by destruct (find_class row "dpValue").
Qed.

Lemma scrape_soup_with_bs4 soup d :
  App.scrape_soup_with App.bs4_row_ops soup d = Ok (App.scrape_soup soup d).
Proof.
  unfold App.scrape_soup_with, App.scrape_soup.
  destruct (find soup "div" "dpPanchang" None); [|done].
  by rewrite !get_value_from_row_with_bs4.
Qed.

Lemma scrape_day_with_bs4 d location trace :
  App.scrape_panchang_for_day_with App.bs4_row_ops d location trace =
  App.scrape_panchang_for_day d location trace.
Proof.
  unfold App.scrape_panchang_for_day_with, App.scrape_panchang_for_day.
  f_equal. destruct (requests_get _ _) as [response|]; [|done]. simpl.
  destruct (raise_for_status response); [|done]. simpl.
  by rewrite scrape_soup_with_bs4.
Qed.

(** What a row operation raises while one key is looked up leaves the
    scraper: the document yields no record. *)
Lemma scrape_soup_with_raise ops soup d table key field e :
  find soup "div" "dpPanchang" None = Some table →
  (key, field) ∈ Api.target_keys →
  App.get_value_from_row_with ops (find_all_class table "dpRow") key = Raise e →
  ∃ e', App.scrape_soup_with ops soup d = Raise e'.
Proof.
  intros Ht Hk He. unfold App.scrape_soup_with. rewrite Ht. cbv zeta.
  unfold Api.target_keys in Hk.
  repeat (apply elem_of_cons in Hk as [[= -> ->]|Hk];
    [repeat match goal with
       | |- context [App.get_value_from_row_with ?o ?r ?k] =>
           destruct (App.get_value_from_row_with o r k) eqn:?; simpl
       end; eauto; congruence|]).
  by apply elem_of_nil in Hk.
Qed.

Lemma scrape_day_with_raise ops d location trace response e :
  requests_get trace (App.url_for (strftime d "%d/%m/%Y")) = Ok response →
  App.scrape_soup_with ops (soup_of (html_parser (text response))) d = Raise e →
  (App.scrape_panchang_for_day_with ops d location trace).1 = None.
Proof.
  intros Hget Hraise. unfold App.scrape_panchang_for_day_with. simpl.
  rewrite Hget. simpl. destruct (raise_for_status response) as [[]|e']; simpl.
  - rewrite Hraise. by destruct e.
  - by destruct e'.
Qed.
End AppFacts.

(** * The statements of the specification *)

(** ** The request handler *)

(** C1 (fails on the code at the last representable day). The claim asks,
    for every start date not after the end date, for one entry per day of
    the range. For a range that ends on 9999-12-31 the handler scrapes that
    day, then steps [current_date] past [date.max]: the addition raises
    [OverflowError], which nothing catches, and no list is returned. Here
    the request is for the single day 9999-12-31, in both files. Ranges
    that end earlier behave as claimed ([get_panchang_in_range]). *)
Theorem get_panchang_last_day_raises :
  @Api.get_panchang (Docs.platform "card")
     (Docs.request "9999-12-31" "9999-12-31" "New Delhi") [] =
    (Raise OverflowError, [Api.url_for "31/12/9999"]) ∧
  @App.get_panchang (Docs.platform "card")
     (Docs.request "9999-12-31" "9999-12-31" "New Delhi") [] =
    (Raise OverflowError, [App.url_for "31/12/9999"]).
Proof. split; vm_compute; reflexivity. Qed.

(** C8. The location does not reach the lookup: for any two location
    strings, the day scraper asks for the same URL and returns the same
    record, and the loop over a range returns the same list and leaves the
    same trace of requests, in both files and whatever the network does. *)
Theorem location_does_not_reach_the_lookup `{Platform}
    (d sd ed : date) (l1 l2 : string) (acc : list (gmap string string))
    (trace : list string) :
  Api.scrape_panchang_for_day d l1 trace = Api.scrape_panchang_for_day d l2 trace ∧
  Api.while_days sd ed l1 acc trace = Api.while_days sd ed l2 acc trace ∧
  App.scrape_panchang_for_day d l1 trace = App.scrape_panchang_for_day d l2 trace ∧
  App.while_days sd ed l1 acc trace = App.while_days sd ed l2 acc trace.
Proof.
  split_and!; [done| |done|].
  - apply while_days_location. intros. apply api_scrape_location.
  - apply while_days_location. intros. apply app_scrape_location.
Qed.

(** C9. A request that lacks one of the three parameters, or whose start or
    end date [strptime] rejects, is answered with status 400 and a
    non-empty error message, and the trace of requests is left as it was:
    the loop never ran and nothing was fetched. Both files. *)
Theorem bad_request_is_refused `{Platform}
    (args : gmap string string) (trace : list string) :
  args !! "start_date" = None ∨ args !! "end_date" = None ∨
  args !! "location" = None ∨
  (∃ s, args !! "start_date" = Some s ∧ strptime s "%Y-%m-%d" = None) ∨
  (∃ e, args !! "end_date" = Some e ∧ strptime e "%Y-%m-%d" = None) →
  ∃ m1 m2, m1 ≠ "" ∧ m2 ≠ "" ∧
    Api.get_panchang args trace = (Ok (ErrorBody m1, 400%Z), trace) ∧
    App.get_panchang args trace = (Ok (ErrorBody m2, 400%Z), trace).
Proof.
  intros Hbad.
  destruct (forallb truthy [args !! "start_date"; args !! "end_date"; args !! "location"])
    eqn:Hall.
  - destruct (args !! "start_date") as [s|] eqn:Hs; [|done].
    destruct (args !! "end_date") as [e|] eqn:He; [|by destruct s].
    destruct (args !! "location") as [l|] eqn:Hl; [|by destruct s, e].
    assert (strptime s "%Y-%m-%d" = None ∨ strptime e "%Y-%m-%d" = None) as Hp.
    { destruct Hbad as [?|[?|[?|[(s' & [= <-] & ?)|(e' & [= <-] & ?)]]]]; try done; auto. }
    rewrite <- Hs, <- He, <- Hl in Hall.
    eexists _, _. split_and!; [| |by eapply get_panchang_invalid..]; done.
  - eexists _, _. split_and!; [| |by apply get_panchang_missing..]; done.
Qed.

Lemma bad_request_is_refused_witness :
  ∃ m1 m2, m1 ≠ "" ∧ m2 ≠ "" ∧
    @Api.get_panchang (Docs.platform "card")
       (<["start_date" := "2024-01-01"]> {[ "end_date" := "2024-01-03" ]}) [] =
      (Ok (ErrorBody m1, 400%Z), []) ∧
    @App.get_panchang (Docs.platform "card")
       (<["start_date" := "2024-01-01"]> {[ "end_date" := "2024-01-03" ]}) [] =
      (Ok (ErrorBody m2, 400%Z), []).
Proof.
  apply (@bad_request_is_refused (Docs.platform "card")).
  right. right. left. vm_compute. reflexivity.
Defined.

(** C10. A parameter that is present but empty is handled as an absent one:
    the handler gives the missing-parameter answer with status 400, the
    same answer it gives when that parameter is removed from the request,
    and the trace is left as it was. The answer names no date and no
    parser: it is the same on every platform. Both files. *)
Theorem empty_parameter_is_missing `{Platform}
    (args : gmap string string) (trace : list string) (k : string) :
  k ∈ ["start_date"; "end_date"; "location"] →
  args !! k = Some "" →
  Api.get_panchang args trace =
    (Ok (ErrorBody "Missing required parameters (start_date, end_date, location).",
         400%Z), trace) ∧
  Api.get_panchang (delete k args) trace = Api.get_panchang args trace ∧
  App.get_panchang args trace =
    (Ok (ErrorBody "Missing required parameters", 400%Z), trace) ∧
  App.get_panchang (delete k args) trace = App.get_panchang args trace.
Proof.
  intros Hk Hempty.
  assert (forallb truthy [args !! "start_date"; args !! "end_date"; args !! "location"]
          = false) as Hall.
  { repeat (apply elem_of_cons in Hk as [->|Hk];
            [rewrite Hempty; simpl; by rewrite ?andb_false_r|]).
    by apply elem_of_nil in Hk. }
  assert (forallb truthy [delete k args !! "start_date"; delete k args !! "end_date";
                          delete k args !! "location"] = false) as Hall'.
  { repeat (apply elem_of_cons in Hk as [->|Hk];
            [rewrite lookup_delete_eq; simpl; by rewrite ?andb_false_r|]).
    by apply elem_of_nil in Hk. }
  unfold Api.get_panchang, App.get_panchang.
  by rewrite !(get_panchang_missing _ _ _ _ _ _ Hall),
             !(get_panchang_missing _ _ _ _ _ _ Hall').
Qed.

Lemma empty_parameter_is_missing_witness :
  @Api.get_panchang (Docs.platform "card")
     (Docs.request "2024-01-01" "2024-01-03" "") [] =
    (Ok (ErrorBody "Missing required parameters (start_date, end_date, location).",
         400%Z), []) ∧
  @Api.get_panchang (Docs.platform "card")
     (delete "location" (Docs.request "2024-01-01" "2024-01-03" "")) [] =
    @Api.get_panchang (Docs.platform "card")
      (Docs.request "2024-01-01" "2024-01-03" "") [] ∧
  @App.get_panchang (Docs.platform "card")
     (Docs.request "2024-01-01" "2024-01-03" "") [] =
    (Ok (ErrorBody "Missing required parameters", 400%Z), []) ∧
  @App.get_panchang (Docs.platform "card")
     (delete "location" (Docs.request "2024-01-01" "2024-01-03" "")) [] =
    @App.get_panchang (Docs.platform "card")
      (Docs.request "2024-01-01" "2024-01-03" "") [].
Proof.
  apply (@empty_parameter_is_missing (Docs.platform "card")).
  - vm_compute. do 2 right. left.
  - vm_compute. reflexivity.
Defined.

(** ** The field extractor of [api/app.py] *)




(** C7 (amended). The count of five labels is checked on the second tier
    only. An anchor that is not the card either holds at least five
    [div.dpTableKey] elements, or is the nearest enclosing [div] of the
    Sunrise label, taken as the last resort after every enclosing [div]
    was found to hold fewer than five. *)
Theorem row_count_is_checked_on_the_walk_only (soup a : Tag) :
  Api.resolved_anchor soup = Some a →
  find soup "div" "dpPanchangCard" None = Some a ∨
  (5 ≤ length (Api.labels a))%nat ∨
  (∃ s, find soup "div" "dpTableKey" (Some "Sunrise") = Some s ∧
        find_parent s "div" = Some a ∧
        Forall (λ x, (length (Api.labels x) < 5)%nat) (Api.div_parents s)).
Proof.
  intros Ha.
  destruct (find soup "div" "dpPanchangCard" None) as [card|] eqn:Hc.
  { left. rewrite (resolved_anchor_card _ _ Hc) in Ha. congruence. }
  right.
  destruct (find soup "div" "dpTableKey" (Some "Sunrise")) as [s|] eqn:Hs.
  2: { unfold Api.resolved_anchor in Ha.
       by rewrite (find_panchang_card_nothing _ Hc Hs) in Ha. }
  rewrite (resolved_anchor_sunrise _ _ Hc Hs) in Ha.
  destruct (head (filter _ _)) as [a'|] eqn:Hwalk.
  - left. injection Ha as <-.
    by apply head_Some_elem_of, list_elem_of_filter in Hwalk as [? _].
  - right. exists s. split_and!; [done|done|].
    apply head_None in Hwalk. apply Forall_forall. intros x Hx.
    destruct (decide (5 ≤ length (Api.labels x))%nat) as [Hen|Hen]; [|lia].
    assert (x ∈ filter (λ x, (5 ≤ length (Api.labels x))%nat) (Api.div_parents s)) as Hin
      by by apply list_elem_of_filter.
    rewrite Hwalk in Hin. by apply elem_of_nil in Hin.
Qed.

Lemma row_count_is_checked_on_the_walk_only_witness :
  Api.resolved_anchor (soup_of Docs.plain_page) =
    Some (Docs.tag_in Docs.plain_page [0; 0; 0]%nat) ∧
  (5 ≤ length (Api.labels (Docs.tag_in Docs.plain_page [0; 0; 0]%nat)))%nat.
Proof.
  split; [vm_compute; reflexivity|].
  destruct (row_count_is_checked_on_the_walk_only (soup_of Docs.plain_page)
              (Docs.tag_in Docs.plain_page [0; 0; 0]%nat))
    as [Hcard|[Hfive|(s & Hs & Hparent & _)]].
  - vm_compute. reflexivity.
  - vm_compute in Hcard. discriminate Hcard.
  - exact Hfive.
  - vm_compute in Hs. injection Hs as <-.
    vm_compute in Hparent. discriminate Hparent.
Defined.

(** C7, as stated, at two pages: a card with nothing in it is accepted by
    the first tier with no label at all, and on the page with two rows the
    third tier accepts the row of the Sunrise label, a [div] that holds one
    label. *)
Lemma anchors_with_fewer_than_five_rows :
  Api.resolved_anchor (soup_of Docs.empty_card_page) =
    Some (Docs.tag_in Docs.empty_card_page [0; 0; 0]%nat) ∧
  length (Api.labels (Docs.tag_in Docs.empty_card_page [0; 0; 0]%nat)) = 0%nat ∧
  Api.resolved_anchor (soup_of Docs.short_page) =
    Some (Docs.tag_in Docs.short_page [0; 0; 0; 0]%nat) ∧
  length (Api.labels (Docs.tag_in Docs.short_page [0; 0; 0; 0]%nat)) = 1%nat.
Proof. split_and!; vm_compute; reflexivity. Qed.

(** C3. Once an anchor is found, the document yields a record, whatever the
    tag operations do inside the helper: the record holds the date and the
    six fields and nothing else, each field being a value or the sentinel.
    A document yields no record only when no anchor is found. *)
Theorem record_whenever_anchor `{Platform} (ops : TagOps) (soup : Tag) (d : date) :
  (∀ card, Api.resolved_anchor soup = Some card →
     ∃ data,
       Api.scrape_soup ops soup d = Ok (Some data) ∧
       data !! "date" = Some (strftime d "%Y-%m-%d") ∧
       (∀ key field, (key, field) ∈ Api.target_keys → is_Some (data !! field)) ∧
       dom data = ({["date"; "sunrise"; "sunset"; "tithi"; "nakshatra"; "yoga"; "karana"]}
                     : gset string)) ∧
  ((∀ data, Api.scrape_soup ops soup d ≠ Ok (Some data)) →
   Api.resolved_anchor soup = None).
Proof.
  split.
  - intros card Ha.
    destruct (scrape_soup_record ops soup d card Ha) as (data & Hd & Hdate & Hfields & Hdom).
    exists data. split_and!; [done|done| |done].
    intros key field Hk. rewrite (Hfields key field Hk). eauto.
  - intros Hno. destruct (Api.resolved_anchor soup) as [card|] eqn:Ha; [|done].
    destruct (scrape_soup_record ops soup d card Ha) as (data & Hd & _).
    by destruct (Hno data).
Qed.

(** The card with nothing in it: every field is the sentinel, and the
    record is still returned. *)
Lemma record_whenever_anchor_witness :
  ∃ data,
    @Api.scrape_soup (Docs.platform "card") bs4_ops
       (soup_of Docs.empty_card_page) Docs.new_year = Ok (Some data) ∧
    data !! "date" = Some "2024-01-01" ∧
    (∀ key field, (key, field) ∈ Api.target_keys → is_Some (data !! field)) ∧
    dom data = ({["date"; "sunrise"; "sunset"; "tithi"; "nakshatra"; "yoga"; "karana"]}
                  : gset string).
Proof.
  apply (proj1 (@record_whenever_anchor (Docs.platform "card") bs4_ops
                  (soup_of Docs.empty_card_page) Docs.new_year)
           (Docs.tag_in Docs.empty_card_page [0; 0; 0]%nat)).
  vm_compute. reflexivity.
Defined.








(** In [app.py] the key is looked for in the text of the label as it is:
    a label in capitals is not matched. *)
Example app_row_matching_is_case_sensitive :
  App.get_value_from_row
    [mkTag (Elem "div" ["dpRow"]
              [Elem "span" ["dpLabel"] [Text "SUNRISE"];
               Elem "span" ["dpValue"] [Text "06:11 AM"]]) []]
    "Sunrise" = "Not Found".
Proof. vm_compute. reflexivity. Qed.

(** * Further properties of the code *)

(** ** A run of the loop, day by day *)

Section LoopRuns.
Context `{Platform}.
Variable scrape :
  date → string → list string → option (gmap string string) * list string.
Variable failed_message : string.
Variable target : date → string.

(** The day scraper makes one request, for the target of the day. *)
Hypothesis scrape_logs : ∀ d location trace,
  (scrape d location trace).2 = trace ++ [target d].

(** Over a range that ends before [date.max] the loop makes one request for
    each day, in the order of the days, and appends for each day the entry
    made from what the day scraper returned on the trace of that moment. *)
Lemma while_days_run current_date end_date location acc trace :
  (toordinal end_date < MAXORDINAL)%Z →
  ∃ out urls,
    Handler.while_days scrape failed_message current_date end_date location acc trace =
      (Ok (acc ++ out), trace ++ urls) ∧
    length out = Z.to_nat (toordinal end_date - toordinal current_date + 1) ∧
    length urls = length out ∧
    ∀ (i : nat), (i < length out)%nat →
      ∃ d, toordinal d = (toordinal current_date + Z.of_nat i)%Z ∧
           urls !! i = Some (target d) ∧
           out !! i = Some (Handler.day_entry failed_message d
                              (scrape d location (trace ++ take i urls)).1).
Proof.
  intros Hend.
  remember (Z.to_nat (toordinal end_date - toordinal current_date + 1)) as n eqn:Hn.
  revert current_date acc trace Hn.
  induction n as [|n IH]; intros cur acc trace Hn;
    rewrite while_days_unfold; unfold date_le.
  - rewrite (proj2 (Z.leb_gt _ _)) by lia.
    exists [], []. rewrite !app_nil_r. split_and!; [done..|].
    simpl. lia.
  - rewrite (proj2 (Z.leb_le _ _)) by lia.
    destruct (add_days_next cur) as (next & -> & Hnext); [lia|].
    rewrite scrape_logs.
    destruct (IH next
      (acc ++ [Handler.day_entry failed_message cur (scrape cur location trace).1])
      (trace ++ [target cur])) as (out & urls & -> & Hlen & Hurls & Hrun); [lia|].
    exists (Handler.day_entry failed_message cur (scrape cur location trace).1 :: out),
           (target cur :: urls).
    rewrite <- !app_assoc. split_and!; [done|simpl; lia|simpl; lia|].
    intros [|i] Hi; simpl in Hi.
    + exists cur. simpl. rewrite app_nil_r. split_and!; [lia|done..].
    + destruct (Hrun i) as (d & Hd & Hurl & Hout); [lia|].
      exists d. simpl. split_and!; [lia|done|].
      rewrite Hout. by rewrite <- app_assoc.
Qed.
(** Over a range that ends on [date.max] the loop requests every day of the
    range, the last one included, before the step past [date.max] raises. *)
Lemma while_days_overflow_run current_date end_date location acc trace :
  toordinal end_date = MAXORDINAL →
  ∃ urls,
    Handler.while_days scrape failed_message current_date end_date location acc trace =
      (Raise OverflowError, trace ++ urls) ∧
    length urls = Z.to_nat (MAXORDINAL - toordinal current_date + 1).
Proof.
  intros Hend.
  remember (Z.to_nat (MAXORDINAL - toordinal current_date)) as n eqn:Hn.
  revert current_date acc trace Hn.
  induction n as [|n IH]; intros cur acc trace Hn;
    pose proof (date_bounds cur) as Hcur;
    rewrite while_days_unfold; unfold date_le;
    rewrite (proj2 (Z.leb_le _ _)) by lia.
  - rewrite add_days_overflow by lia. rewrite scrape_logs.
    exists [target cur]. split; [done|]. simpl. lia.
  - destruct (add_days_next cur) as (next & -> & Hnext); [lia|].
    rewrite scrape_logs.
    destruct (IH next
      (acc ++ [Handler.day_entry failed_message cur (scrape cur location trace).1])
      (trace ++ [target cur])) as (urls & -> & Hlen); [lia|].
    exists (target cur :: urls). rewrite <- app_assoc. split; [done|].
    simpl. lia.
Qed.
End LoopRuns.

(** ** The two day scrapers as the loop sees them *)

Section DayFacts.
Context `{Platform}.

Lemma api_scrape_logs ops d location trace :
  (Api.scrape_panchang_for_day_with ops d location trace).2 =
  trace ++ [Api.url_for (strftime d "%d/%m/%Y")].
Proof. by rewrite scrape_day_unfold. Qed.

Lemma app_scrape_logs d location trace :
  (App.scrape_panchang_for_day d location trace).2 =
  trace ++ [App.url_for (strftime d "%d/%m/%Y")].
Proof. done. Qed.

Lemma all_truthy (args : gmap string string) s e l :
  args !! "start_date" = Some s → args !! "end_date" = Some e →
  args !! "location" = Some l → s ≠ "" → e ≠ "" → l ≠ "" →
  forallb truthy [args !! "start_date"; args !! "end_date"; args !! "location"] = true.
Proof. intros -> -> -> ???. by destruct s, e, l. Qed.

(** X1. A request with three non-empty parameters and two dates that parse,
    the end date before 9999-12-31, is answered with status 200 and a list
    that has one entry for each day from the start date to the end date, in
    the order of the days, each entry carrying its day under "date"; the
    handler makes exactly one request for each of these days, in the same
    order, to the URL of that day. An inverted range gives the empty list
    and no request. Both files. *)
Theorem one_request_and_one_entry_per_day
    (args : gmap string string) (trace : list string) (s e l : string) (sd ed : date) :
  args !! "start_date" = Some s → args !! "end_date" = Some e →
  args !! "location" = Some l →
  s ≠ "" → e ≠ "" → l ≠ "" →
  strptime s "%Y-%m-%d" = Some sd → strptime e "%Y-%m-%d" = Some ed →
  (toordinal ed < MAXORDINAL)%Z →
  (∃ out urls,
     Api.get_panchang args trace = (Ok (PanchangBody out, 200%Z), trace ++ urls) ∧
     length out = Z.to_nat (toordinal ed - toordinal sd + 1) ∧
     length urls = length out ∧
     ∀ (i : nat), (i < length out)%nat →
       ∃ d entry, toordinal d = (toordinal sd + Z.of_nat i)%Z ∧
         urls !! i = Some (Api.url_for (strftime d "%d/%m/%Y")) ∧
         out !! i = Some entry ∧
         entry !! "date" = Some (strftime d "%Y-%m-%d")) ∧
  (∃ out urls,
     App.get_panchang args trace = (Ok (PanchangBody out, 200%Z), trace ++ urls) ∧
     length out = Z.to_nat (toordinal ed - toordinal sd + 1) ∧
     length urls = length out ∧
     ∀ (i : nat), (i < length out)%nat →
       ∃ d entry, toordinal d = (toordinal sd + Z.of_nat i)%Z ∧
         urls !! i = Some (App.url_for (strftime d "%d/%m/%Y")) ∧
         out !! i = Some entry ∧
         entry !! "date" = Some (strftime d "%Y-%m-%d")).
Proof.
  intros Hs He Hl Hs' He' Hl' Hsd Hed Hmax.
  pose proof (all_truthy _ _ _ _ Hs He Hl Hs' He' Hl') as Hall.
  split.
  - unfold Api.get_panchang.
    rewrite (get_panchang_valid _ _ _ _ _ _ _ _ _ _ _ Hall Hs He Hl Hsd Hed).
    destruct (while_days_run Api.scrape_panchang_for_day Api.failed_message
                (λ d, Api.url_for (strftime d "%d/%m/%Y"))
                (api_scrape_logs bs4_ops) sd ed l [] trace Hmax)
      as (out & urls & -> & Hlen & Hurls & Hrun).
    exists out, urls. split_and!; [done..|].
    intros i Hi. destruct (Hrun i Hi) as (d & Hd & Hurl & Hout).
    eexists d, _. split_and!; [done..|].
    apply day_entry_date. intros data. apply api_scrape_dated.
  - unfold App.get_panchang.
    rewrite (get_panchang_valid _ _ _ _ _ _ _ _ _ _ _ Hall Hs He Hl Hsd Hed).
    destruct (while_days_run App.scrape_panchang_for_day App.failed_message
                (λ d, App.url_for (strftime d "%d/%m/%Y"))
                app_scrape_logs sd ed l [] trace Hmax)
      as (out & urls & -> & Hlen & Hurls & Hrun).
    exists out, urls. split_and!; [done..|].
    intros i Hi. destruct (Hrun i Hi) as (d & Hd & Hurl & Hout).
    eexists d, _. split_and!; [done..|].
    apply day_entry_date. intros data. apply app_scrape_dated.
Qed.
End DayFacts.

Lemma one_request_and_one_entry_per_day_witness :
  ∃ out urls,
    @Api.get_panchang (Docs.platform "card")
       (Docs.request "2024-01-01" "2024-01-03" "New Delhi") [] =
      (Ok (PanchangBody out, 200%Z), urls) ∧
    length out = 3%nat ∧ length urls = 3%nat.
Proof.
  destruct (@one_request_and_one_entry_per_day (Docs.platform "card")
              (Docs.request "2024-01-01" "2024-01-03" "New Delhi") []
              "2024-01-01" "2024-01-03" "New Delhi"
              Docs.new_year (mkdate 738888 eq_refl))
    as [(out & urls & Hrun & Hout & Hurls & _) _].
  1-3: vm_compute; reflexivity.
  1-3: discriminate.
  1-2: vm_compute; reflexivity.
  { vm_compute. reflexivity. }
  exists out, urls. split_and!; [exact Hrun|exact Hout|].
  rewrite Hurls. exact Hout.
Defined.

(** ** Every answer the handler can give *)

Section Answers.
Context `{Platform}.

(** X2. Whatever the request and the network, the handler of either file
    ends in one of four ways: the missing-parameter answer with status 400
    and no request made; the invalid-date answer with status 400 and no
    request made; status 200 with a list and one request made for each
    entry of the list; or [OverflowError], which happens only when the end
    date is 9999-12-31 and after a request has been made for every day of
    the range. It gives no other status and raises nothing else. *)
Theorem get_panchang_answers (args : gmap string string) (trace : list string) :
  (Api.get_panchang args trace =
     (Ok (ErrorBody "Missing required parameters (start_date, end_date, location).",
          400%Z), trace) ∨
   Api.get_panchang args trace =
     (Ok (ErrorBody "Invalid date format. Use THAT-MM-DD.", 400%Z), trace) ∨
   (∃ out urls,
      Api.get_panchang args trace = (Ok (PanchangBody out, 200%Z), trace ++ urls) ∧
      length urls = length out) ∨
   (∃ s e sd urls,
      args !! "start_date" = Some s ∧ strptime s "%Y-%m-%d" = Some sd ∧
      args !! "end_date" = Some e ∧ strptime e "%Y-%m-%d" = Some date_max ∧
      Api.get_panchang args trace = (Raise OverflowError, trace ++ urls) ∧
      length urls = Z.to_nat (MAXORDINAL - toordinal sd + 1))) ∧
  (App.get_panchang args trace =
     (Ok (ErrorBody "Missing required parameters", 400%Z), trace) ∨
   App.get_panchang args trace =
     (Ok (ErrorBody "Invalid date format. Use YYYY-MM-DD.", 400%Z), trace) ∨
   (∃ out urls,
      App.get_panchang args trace = (Ok (PanchangBody out, 200%Z), trace ++ urls) ∧
      length urls = length out) ∨
   (∃ s e sd urls,
      args !! "start_date" = Some s ∧ strptime s "%Y-%m-%d" = Some sd ∧
      args !! "end_date" = Some e ∧ strptime e "%Y-%m-%d" = Some date_max ∧
      App.get_panchang args trace = (Raise OverflowError, trace ++ urls) ∧
      length urls = Z.to_nat (MAXORDINAL - toordinal sd + 1))).
Proof.
  destruct (forallb truthy [args !! "start_date"; args !! "end_date"; args !! "location"])
    eqn:Hall.
  2: { split; left; by apply get_panchang_missing. }
  destruct (args !! "start_date") as [s|] eqn:Hs; [|done].
  destruct (args !! "end_date") as [e|] eqn:He; [|by destruct s].
  destruct (args !! "location") as [l|] eqn:Hl; [|by destruct s, e].
  rewrite <- Hs, <- He, <- Hl in Hall.
  destruct (strptime s "%Y-%m-%d") as [sd|] eqn:Hsd.
  2: { split; right; left; eapply get_panchang_invalid; eauto. }
  destruct (strptime e "%Y-%m-%d") as [ed|] eqn:Hed.
  2: { split; right; left; eapply get_panchang_invalid; eauto. }
  unfold Api.get_panchang, App.get_panchang.
  rewrite !(get_panchang_valid _ _ _ _ _ _ _ _ _ _ _ Hall Hs He Hl Hsd Hed).
  pose proof (date_bounds ed) as Hbound.
  destruct (decide (toordinal ed = MAXORDINAL)) as [Hmax|Hmax].
  - assert (ed = date_max) as -> by by apply date_eq.
    split; do 3 right.
    + destruct (while_days_overflow_run Api.scrape_panchang_for_day Api.failed_message
                  (λ d, Api.url_for (strftime d "%d/%m/%Y"))
                  (api_scrape_logs bs4_ops) sd date_max l [] trace Hmax)
        as (urls & -> & Hlen).
      by exists s, e, sd, urls.
    + destruct (while_days_overflow_run App.scrape_panchang_for_day App.failed_message
                  (λ d, App.url_for (strftime d "%d/%m/%Y"))
                  app_scrape_logs sd date_max l [] trace Hmax)
        as (urls & -> & Hlen).
      by exists s, e, sd, urls.
  - split; do 2 right; left.
    + destruct (while_days_run Api.scrape_panchang_for_day Api.failed_message
                  (λ d, Api.url_for (strftime d "%d/%m/%Y"))
                  (api_scrape_logs bs4_ops) sd ed l [] trace)
        as (out & urls & -> & _ & Hurls & _); [lia|].
      by exists out, urls.
    + destruct (while_days_run App.scrape_panchang_for_day App.failed_message
                  (λ d, App.url_for (strftime d "%d/%m/%Y"))
                  app_scrape_logs sd ed l [] trace)
        as (out & urls & -> & _ & Hurls & _); [lia|].
      by exists out, urls.
Qed.
End Answers.

(** ** What the entries of an answer look like *)

Section EntryFacts.
Context `{Platform}.
Variable scrape :
  date → string → list string → option (gmap string string) * list string.
Variable missing_message invalid_message failed_message : string.

(** Whatever holds of every entry the loop can append holds of every entry
    of the list it returns. *)
Lemma while_days_entries (P : gmap string string → Prop)
    current_date end_date location acc trace out trace' :
  (∀ d l t, P (Handler.day_entry failed_message d (scrape d l t).1)) →
  Forall P acc →
  Handler.while_days scrape failed_message current_date end_date location acc trace =
    (Ok out, trace') →
  Forall P out.
Proof.
  intros HP.
  remember (Z.to_nat (toordinal end_date - toordinal current_date + 1)) as n eqn:Hn.
  revert current_date acc trace Hn.
  induction n as [n IH] using lt_wf_ind; intros cur acc trace Hn Hacc.
  rewrite while_days_unfold. unfold date_le.
  destruct (Z.leb_spec (toordinal cur) (toordinal end_date)); [|by intros [= <- _]].
  destruct (add_days cur 1) as [next|e] eqn:Hnext; [|done].
  apply add_days_Ok in Hnext.
  eapply IH; [|reflexivity|]; [lia|].
  apply Forall_app. split; [done|]. by constructor.
Qed.

(** A list in the answer is the list the loop returned. *)
Lemma get_panchang_list args trace out status trace' :
  Handler.get_panchang scrape missing_message invalid_message failed_message args trace =
    (Ok (PanchangBody out, status), trace') →
  ∃ sd ed l,
    Handler.while_days scrape failed_message sd ed l [] trace = (Ok out, trace').
Proof.
  unfold Handler.get_panchang.
  destruct (negb _); [done|].
  destruct (_ ≫= _) as [[sd ed]|]; [|done].
  destruct (Handler.while_days _ _ sd ed _ [] trace) as [[l0|e] t] eqn:Hrun; [|done].
  simpl. intros [= <- _ <-]. eauto.
Qed.

(** The placeholder appended for a failed day has the two keys "date" and
    "error" and no other. *)
Lemma day_entry_None d :
  dom (Handler.day_entry failed_message d None) = ({["date"; "error"]} : gset string) ∧
  Handler.day_entry failed_message d None !! "error" = Some failed_message ∧
  Handler.day_entry failed_message d None !! "date" = Some (strftime d "%Y-%m-%d").
Proof.
  unfold Handler.day_entry. split_and!; [|by simplify_map_eq..].
  rewrite dom_insert_L, dom_singleton_L. set_solver.
Qed.

Lemma day_entry_Some d data :
  data ≠ ∅ → Handler.day_entry failed_message d (Some data) = data.
Proof. intros Hne. unfold Handler.day_entry. by case_decide. Qed.
End EntryFacts.

Section Shapes.
Context `{Platform}.

Lemma raise_for_status_Ok response :
  ¬ (400 ≤ status_code response < 600)%Z → raise_for_status response = Ok tt.
Proof.
  intros Hst. unfold raise_for_status.
  destruct (Z.leb_spec 400 (status_code response)),
           (Z.ltb_spec (status_code response) 600); simpl; try done. lia.
Qed.

Lemma raise_for_status_Raise response :
  (400 ≤ status_code response < 600)%Z →
  raise_for_status response = Raise RequestException.
Proof.
  intros Hst. unfold raise_for_status.
  destruct (Z.leb_spec 400 (status_code response)),
           (Z.ltb_spec (status_code response) 600); simpl; try done; lia.
Qed.

Lemma api_scrape_keys ops d location trace data :
  (Api.scrape_panchang_for_day_with ops d location trace).1 = Some data →
  dom data = ({["date"; "sunrise"; "sunset"; "tithi"; "nakshatra"; "yoga"; "karana"]}
                : gset string).
Proof.
  rewrite scrape_day_unfold. simpl.
  destruct (requests_get _ _) as [response|]; [|done].
  destruct (raise_for_status response); [|done].
  destruct (Api.scrape_soup _ _ _) as [r|] eqn:Hr; [|done].
  intros ->.
  destruct (Api.resolved_anchor (soup_of (html_parser (text response)))) as [card|] eqn:Ha.
  - destruct (scrape_soup_record ops _ d card Ha) as (data' & Hd' & _ & _ & Hdom).
    congruence.
  - destruct (scrape_soup_no_anchor ops _ d Ha); congruence.
Qed.

Lemma app_scrape_keys d location trace data :
  (App.scrape_panchang_for_day d location trace).1 = Some data →
  dom data = ({["date"; "sunrise"; "sunset"; "tithi"; "nakshatra"; "yoga"; "karana"]}
                : gset string).
Proof.
  rewrite app_scrape_day_unfold.
  destruct (requests_get _ _) as [response|]; [|done].
  destruct (raise_for_status response); [|done].
  destruct (find (soup_of (html_parser (text response))) "div" "dpPanchang" None)
    as [table|] eqn:Ht.
  - destruct (app_scrape_soup_record _ d table Ht) as (data' & Hd' & _ & _ & Hdom).
    congruence.
  - by rewrite app_scrape_soup_None.
Qed.

Lemma seven_keys_not_empty (data : gmap string string) :
  dom data = ({["date"; "sunrise"; "sunset"; "tithi"; "nakshatra"; "yoga"; "karana"]}
                : gset string) →
  data ≠ ∅ ∧ data !! "error" = None.
Proof.
  intros Hdom. split.
  - intros ->. rewrite dom_empty_L in Hdom.
    apply (not_elem_of_empty (C:=gset string) "date"). rewrite Hdom.
    clear. set_solver.
  - apply not_elem_of_dom. rewrite Hdom.
    apply (bool_decide_unpack _). by vm_compute.
Qed.
End Shapes.

Section DayOutcomes.
Context `{Platform}.

Lemma api_day_record_iff (ops : TagOps) (d : date) (location : string)
    (trace : list string) :
  is_Some (Api.scrape_panchang_for_day_with ops d location trace).1 ↔
  ∃ response,
    requests_get trace (Api.url_for (strftime d "%d/%m/%Y")) = Ok response ∧
    ¬ (400 ≤ status_code response < 600)%Z ∧
    is_Some (Api.resolved_anchor (soup_of (html_parser (text response)))).
Proof.
  rewrite scrape_day_unfold. simpl. split.
  - destruct (requests_get _ _) as [response|]; [|by intros []].
    destruct (decide (400 ≤ status_code response < 600)%Z) as [Hst|Hst].
    { rewrite raise_for_status_Raise by done. by intros []. }
    rewrite raise_for_status_Ok by done.
    intros Hsome. exists response. split_and!; [done..|].
    destruct (Api.resolved_anchor _) as [card|] eqn:Ha; [eauto|].
    destruct Hsome as [data Hdata].
    destruct (scrape_soup_no_anchor ops _ d Ha) as [Hn|Hn];
      rewrite Hn in Hdata; done.
  - intros (response & -> & Hst & [card Ha]).
    rewrite raise_for_status_Ok by done.
    destruct (scrape_soup_record ops _ d card Ha) as (data & -> & _). eauto.
Qed.

Lemma app_day_record_iff (d : date) (location : string) (trace : list string) :
  is_Some (App.scrape_panchang_for_day d location trace).1 ↔
  ∃ response,
    requests_get trace (App.url_for (strftime d "%d/%m/%Y")) = Ok response ∧
    ¬ (400 ≤ status_code response < 600)%Z ∧
    is_Some (find (soup_of (html_parser (text response))) "div" "dpPanchang" None).
Proof.
  rewrite app_scrape_day_unfold. split.
  - destruct (requests_get _ _) as [response|]; [|by intros []].
    destruct (decide (400 ≤ status_code response < 600)%Z) as [Hst|Hst].
    { rewrite raise_for_status_Raise by done. by intros []. }
    rewrite raise_for_status_Ok by done.
    intros Hsome. exists response. split_and!; [done..|].
    destruct (find _ "div" "dpPanchang" None) as [table|] eqn:Ht; [eauto|].
    rewrite app_scrape_soup_None in Hsome by done. by destruct Hsome.
  - intros (response & -> & Hst & [table Ht]).
    rewrite raise_for_status_Ok by done.
    destruct (app_scrape_soup_record _ d table Ht) as (data & -> & _). eauto.
Qed.

(** X3. A call of the day scraper returns a record exactly when the request
    comes back, its status is not a 4xx or 5xx one, and the parsed body has
    what the file looks for: in [api/app.py] an anchor by one of the three
    tiers, in [app.py] a [div.dpPanchang]. In every other case it returns
    [None]: nothing raised inside it gets out. *)
Theorem day_is_a_record_exactly_when
    (ops : TagOps) (d : date) (location : string) (trace : list string) :
  (is_Some (Api.scrape_panchang_for_day_with ops d location trace).1 ↔
   ∃ response,
     requests_get trace (Api.url_for (strftime d "%d/%m/%Y")) = Ok response ∧
     ¬ (400 ≤ status_code response < 600)%Z ∧
     is_Some (Api.resolved_anchor (soup_of (html_parser (text response))))) ∧
  (is_Some (App.scrape_panchang_for_day d location trace).1 ↔
   ∃ response,
     requests_get trace (App.url_for (strftime d "%d/%m/%Y")) = Ok response ∧
     ¬ (400 ≤ status_code response < 600)%Z ∧
     is_Some (find (soup_of (html_parser (text response))) "div" "dpPanchang" None)).
Proof.
  split; [apply api_day_record_iff|apply app_day_record_iff].
Qed.

Lemma api_entry_shape d location trace :
  let entry := Handler.day_entry Api.failed_message d
                 (Api.scrape_panchang_for_day d location trace).1 in
  (dom entry = ({["date"; "error"]} : gset string) ∧
   entry !! "error" = Some Api.failed_message) ∨
  (dom entry = ({["date"; "sunrise"; "sunset"; "tithi"; "nakshatra"; "yoga"; "karana"]}
                  : gset string) ∧
   entry !! "error" = None).
Proof.
  cbv zeta. destruct (Api.scrape_panchang_for_day d location trace).1 as [data|] eqn:Hd.
  - right. apply (api_scrape_keys bs4_ops d location trace) in Hd.
    destruct (seven_keys_not_empty data Hd) as [Hne Herr].
    by rewrite (day_entry_Some Api.failed_message d data Hne).
  - left. by destruct (day_entry_None Api.failed_message d) as (? & ? & _).
Qed.

Lemma app_entry_shape d location trace :
  let entry := Handler.day_entry App.failed_message d
                 (App.scrape_panchang_for_day d location trace).1 in
  (dom entry = ({["date"; "error"]} : gset string) ∧
   entry !! "error" = Some App.failed_message) ∨
  (dom entry = ({["date"; "sunrise"; "sunset"; "tithi"; "nakshatra"; "yoga"; "karana"]}
                  : gset string) ∧
   entry !! "error" = None).
Proof.
  cbv zeta. destruct (App.scrape_panchang_for_day d location trace).1 as [data|] eqn:Hd.
  - right. apply (app_scrape_keys d location trace) in Hd.
    destruct (seven_keys_not_empty data Hd) as [Hne Herr].
    by rewrite (day_entry_Some App.failed_message d data Hne).
  - left. by destruct (day_entry_None App.failed_message d) as (? & ? & _).
Qed.

(** X4. Every entry of a list the handler returns has one of two shapes:
    the placeholder of a failed day, with exactly the keys "date" and
    "error", the latter holding the file's failure message; or a record,
    with exactly the key "date" and the six field keys and no "error" key.
    Both files. *)
Theorem entries_are_placeholders_or_records
    (args : gmap string string) (trace : list string) :
  (∀ out status trace',
     Api.get_panchang args trace = (Ok (PanchangBody out, status), trace') →
     Forall (λ entry : gmap string string,
       (dom entry = ({["date"; "error"]} : gset string) ∧
        entry !! "error" = Some Api.failed_message) ∨
       (dom entry =
          ({["date"; "sunrise"; "sunset"; "tithi"; "nakshatra"; "yoga"; "karana"]}
             : gset string) ∧
        entry !! "error" = None)) out) ∧
  (∀ out status trace',
     App.get_panchang args trace = (Ok (PanchangBody out, status), trace') →
     Forall (λ entry : gmap string string,
       (dom entry = ({["date"; "error"]} : gset string) ∧
        entry !! "error" = Some App.failed_message) ∨
       (dom entry =
          ({["date"; "sunrise"; "sunset"; "tithi"; "nakshatra"; "yoga"; "karana"]}
             : gset string) ∧
        entry !! "error" = None)) out).
Proof.
  split; intros out status trace' Hrun;
    apply get_panchang_list in Hrun as (sd & ed & l & Hrun).
  - apply (while_days_entries Api.scrape_panchang_for_day Api.failed_message _
             sd ed l [] trace out trace'); [|constructor|exact Hrun].
    intros d l' t. apply api_entry_shape.
  - apply (while_days_entries App.scrape_panchang_for_day App.failed_message _
             sd ed l [] trace out trace'); [|constructor|exact Hrun].
    intros d l' t. apply app_entry_shape.
Qed.
End DayOutcomes.

(** On a network that answers every request with status 503, each of the
    three days of the range gets the placeholder. *)
Lemma entries_are_placeholders_or_records_witness :
  ∃ out trace',
    @Api.get_panchang (Sample.platform (λ _ _, Ok (mkResponse 503 "card")) Docs.parse)
       (Docs.request "2024-01-01" "2024-01-03" "New Delhi") [] =
      (Ok (PanchangBody out, 200%Z), trace') ∧
    length out = 3%nat ∧
    Forall (λ entry : gmap string string,
       (dom entry = ({["date"; "error"]} : gset string) ∧
        entry !! "error" = Some Api.failed_message) ∨
       (dom entry =
          ({["date"; "sunrise"; "sunset"; "tithi"; "nakshatra"; "yoga"; "karana"]}
             : gset string) ∧
        entry !! "error" = None)) out.
Proof.
  eexists _, _. split; [vm_compute; reflexivity|]. split; [reflexivity|].
  eapply (proj1 (@entries_are_placeholders_or_records
                   (Sample.platform (λ _ _, Ok (mkResponse 503 "card")) Docs.parse)
                   (Docs.request "2024-01-01" "2024-01-03" "New Delhi") [])).
  vm_compute. reflexivity.
Defined.

(** ** Places in a document *)




Lemma matches_named name cls x :
  tag_test (matches name cls) x = true → tag_test (named name) x = true.
Proof.
  unfold tag_test. destruct (tag_node x) as [[| |nm cl cs]|]; simpl; [done..| |done].
  by intros [? _]%andb_true_iff.
Qed.

(** An enclosing tag is a tag of the same document whose path is a proper
    beginning of the path. *)
Lemma parents_elem a t :
  a ∈ parents t →
  ∃ k, (k < length (tag_path t))%nat ∧ a = mkTag (tag_root t) (take k (tag_path t)).
Proof.
  unfold parents, enclosing. intros (k & -> & Hk)%list_elem_of_fmap.
  apply elem_of_reverse, elem_of_seq in Hk. exists k. split; [lia|done].
Qed.




(** ** Stripping *)

Lemma lstrip_clean s :
  match lstrip s with
  | EmptyString => True
  | String c _ => is_space c = false
  end.
Proof.
  induction s as [|c s IH]; simpl; [done|].
  destruct (is_space c) eqn:Hc; [done|]. simpl. done.
Qed.

Lemma lstrip_id c s : is_space c = false → lstrip (String c s) = String c s.
Proof. intros Hc. simpl. by rewrite Hc. Qed.

Lemma rstrip_idem s : rstrip (rstrip s) = rstrip s.
Proof.
  induction s as [|c s IH]; simpl; [done|].
  destruct (rstrip s) as [|c' r] eqn:Hr.
  - destruct (is_space c) eqn:Hc; simpl; [done|]. by rewrite Hc.
  - change (rstrip (String c (String c' r))) with
      (match rstrip (String c' r) with
       | EmptyString => if is_space c then EmptyString else String c EmptyString
       | r' => String c r'
       end).
    by rewrite IH.
Qed.

Lemma rstrip_head c s :
  is_space c = false → ∃ r, rstrip (String c s) = String c r.
Proof.
  intros Hc. simpl. destruct (rstrip s); [rewrite Hc|]; eauto.
Qed.

(** A stripped text that is not empty begins and ends with a character
    that is not white space. *)
Lemma strip_clean s :
  strip s ≠ ""%string →
  ∃ c r, strip s = String c r ∧ is_space c = false ∧ rstrip (strip s) = strip s.
Proof.
  unfold strip. intros Hne. pose proof (lstrip_clean s) as Hl.
  destruct (lstrip s) as [|c l] eqn:Hs; [done|].
  destruct (rstrip_head c l Hl) as [r Hr].
  exists c, r. split_and!; [done..|]. apply rstrip_idem.
Qed.

Lemma rstrip_app x y :
  y ≠ ""%string → rstrip y = y → rstrip (x ++ y)%string = (x ++ y)%string.
Proof.
  intros Hy Hr. induction x as [|c x IH]; [done|].
  simpl. rewrite IH.
  change (String c x ++ y)%string with (String c (x ++ y)%string).
  destruct (x ++ y)%string eqn:Hxy; [|done].
  destruct x; [by destruct Hy|discriminate].
Qed.

Lemma string_app_assoc (a b c : string) :
  ((a ++ b) ++ c)%string = (a ++ b ++ c)%string.
Proof.
  induction a as [|x a IH]; [reflexivity|].
  change (String x ((a ++ b) ++ c) = String x (a ++ b ++ c))%string.
  by f_equal.
Qed.

(** Texts that are not empty and neither begin nor end with white space,
    joined by single spaces, give a text of the same kind (or the empty
    text, when there is none to join). *)
Lemma join_clean parts :
  Forall (λ p, ∃ c r, p = String c r ∧ is_space c = false ∧ rstrip p = p) parts →
  parts = [] ∨
  ∃ c r, join " " parts = String c r ∧ is_space c = false ∧
         rstrip (join " " parts) = join " " parts.
Proof.
  induction 1 as [|p parts (c & r & -> & Hc & Hr) Hparts IH]; [by left|].
  right. destruct IH as [->|(c' & r' & Hj & Hc' & Hr')].
  - simpl. eauto.
  - destruct parts as [|q parts]; [done|].
    change (join " " (String c r :: q :: parts))
      with (String c r ++ " " ++ join " " (q :: parts))%string.
    exists c, (r ++ " " ++ join " " (q :: parts))%string. split_and!; [done..|].
    change (String c (r ++ " " ++ join " " (q :: parts)))%string
      with (String c r ++ " " ++ join " " (q :: parts))%string.
    rewrite <- string_app_assoc. apply rstrip_app; [|done]. by rewrite Hj.
Qed.

Lemma stripped_strings_clean t :
  Forall (λ p, ∃ c r, p = String c r ∧ is_space c = false ∧ rstrip p = p)
    (stripped_strings t).
Proof.
  unfold stripped_strings. destruct (tag_node t) as [n|]; [|constructor].
  apply Forall_forall. intros p [Hne (s & -> & _)%list_elem_of_fmap]%list_elem_of_filter.
  destruct (strip_clean s Hne) as (c & r & Hs & Hc & Hr). rewrite Hs in *. eauto.
Qed.

(** X5. The text the helper of [api/app.py] reads from a label or a value,
    [' '.join(t.stripped_strings).strip()], is already stripped before the
    final [strip()]: that call changes nothing, and the text neither begins
    nor ends with white space. *)
Theorem joined_text_is_stripped (t : Tag) :
  Api.joined t = join " " (stripped_strings t) ∧
  lstrip (Api.joined t) = Api.joined t ∧
  rstrip (Api.joined t) = Api.joined t.
Proof.
  assert (strip (join " " (stripped_strings t)) = join " " (stripped_strings t)
          ∧ lstrip (join " " (stripped_strings t)) = join " " (stripped_strings t)
          ∧ rstrip (join " " (stripped_strings t)) = join " " (stripped_strings t))
    as (Hs & Hl & Hr).
  { destruct (join_clean _ (stripped_strings_clean t)) as [->|(c & r & Hj & Hc & Hr)].
    - done.
    - unfold strip. rewrite Hj in *. by rewrite (lstrip_id c r Hc). }
  unfold Api.joined. by rewrite Hs.
Qed.

(** ** Where the anchor lies *)

Lemma div_parents_elem a s :
  a ∈ Api.div_parents s → a ∈ parents s ∧ tag_test (named "div") a = true.
Proof.
  unfold Api.div_parents. by intros [? ?]%list_elem_of_filter.
Qed.

(** The anchor of the second and third tier is one of the enclosing [div]s
    of the Sunrise label. *)
Lemma fallback_anchor_encloses soup s a :
  find soup "div" "dpPanchangCard" None = None →
  find soup "div" "dpTableKey" (Some "Sunrise") = Some s →
  Api.resolved_anchor soup = Some a →
  a ∈ Api.div_parents s.
Proof.
  intros Hc Hs. rewrite (resolved_anchor_sunrise _ _ Hc Hs).
  destruct (head (filter _ _)) as [a'|] eqn:Hwalk.
  - intros [= <-]. apply head_Some_elem_of in Hwalk.
    by apply list_elem_of_filter in Hwalk as [_ ?].
  - by intros ?%head_Some_elem_of.
Qed.

(** X6. The anchor is always a [div] element of the document that was
    searched, never the document object itself and never a text. *)
Theorem anchor_is_a_div_of_the_document (top : list node) (a : Tag) :
  Api.resolved_anchor (soup_of top) = Some a →
  tag_root a = tag_root (soup_of top) ∧
  tag_test (named "div") a = true ∧
  tag_path a ≠ [].
Proof.
  intros Ha.
  assert (tag_root a = tag_root (soup_of top) ∧ tag_test (named "div") a = true)
    as [Hroot Hdiv].
  { destruct (find (soup_of top) "div" "dpPanchangCard" None) as [card|] eqn:Hc.
    - rewrite (resolved_anchor_card _ _ Hc) in Ha. injection Ha as <-.
      apply find_elem in Hc as [[? ?]%find_all_elem _].
      split; [done|]. by eapply matches_named.
    - destruct (find (soup_of top) "div" "dpTableKey" (Some "Sunrise")) as [s|] eqn:Hs.
      + pose proof (fallback_anchor_encloses _ _ _ Hc Hs Ha) as [Hp Hdiv]%div_parents_elem.
        apply parents_elem in Hp as (k & _ & ->).
        apply find_elem in Hs as [[Hroot _]%find_all_elem _].
        by split.
      + unfold Api.resolved_anchor in Ha.
        by rewrite (find_panchang_card_nothing _ Hc Hs) in Ha. }
  split_and!; [done..|].
  intros Hpath. unfold tag_test, tag_node in Hdiv.
  by rewrite Hroot, Hpath in Hdiv.
Qed.

Lemma anchor_is_a_div_of_the_document_witness :
  tag_root (Docs.tag_in Docs.plain_page [0; 0; 0]%nat) =
    tag_root (soup_of Docs.plain_page) ∧
  tag_test (named "div") (Docs.tag_in Docs.plain_page [0; 0; 0]%nat) = true ∧
  tag_path (Docs.tag_in Docs.plain_page [0; 0; 0]%nat) ≠ [].
Proof.
  apply (anchor_is_a_div_of_the_document Docs.plain_page).
  vm_compute. reflexivity.
Defined.




(** A Sunrise label whose only string sits in a [script]: the search finds
    it by its string, the helper reads no text in it, and the lookup of
    "Sunrise" runs through the labels to the sentinel. *)
Example script_label_is_found_and_not_read :
  Api.resolved_anchor (soup_of Docs.script_label_page) =
    Some (Docs.tag_in Docs.script_label_page [0]%nat) ∧
  tag_string (Docs.tag_in Docs.script_label_page [0; 0]%nat) = Some "Sunrise" ∧
  stripped_strings (Docs.tag_in Docs.script_label_page [0; 0]%nat) = [] ∧
  Api.get_value_from_table bs4_ops (Docs.tag_in Docs.script_label_page [0]%nat)
    "Sunrise" = "Not Found".
Proof. split_and!; vm_compute; reflexivity. Qed.

(** ** The row helper of [app.py] *)

(** X8. The row helper of [app.py] goes through the rows in order and stops
    at the first row whose first [.dpLabel] element has the key in its text,
    as written (upper and lower case are told apart, nothing is stripped).
    It returns the stripped text of the first [.dpValue] element of that
    row, or the sentinel when the row has none. Rows without a label and
    rows whose label does not have the key are passed over; when every row
    is passed over the result is the sentinel. *)
Theorem row_helper_stops_at_first_row (rows : list Tag) (row_name : string) :
  (∀ r1 row r2 label,
     rows = r1 ++ row :: r2 →
     Forall (λ r, ∀ lab, find_class r "dpLabel" = Some lab →
                  ¬ ∃ a b, tag_text lab = (a ++ row_name ++ b)%string) r1 →
     find_class row "dpLabel" = Some label →
     (∃ a b, tag_text label = (a ++ row_name ++ b)%string) →
     App.get_value_from_row rows row_name =
       match find_class row "dpValue" with
       | Some value_element => strip (tag_text value_element)
       | None => "Not Found"
       end) ∧
  (Forall (λ r, ∀ lab, find_class r "dpLabel" = Some lab →
                ¬ ∃ a b, tag_text lab = (a ++ row_name ++ b)%string) rows →
   App.get_value_from_row rows row_name = "Not Found").
Proof.
  split.
  - intros r1 row r2 label -> Hr1 Hlabel Hocc.
    induction Hr1 as [|r r1 Hr _ IH]; simpl.
    + rewrite Hlabel. apply contains_spec in Hocc. by rewrite Hocc.
    + destruct (find_class r "dpLabel") as [lab|]; [|done].
      destruct (contains row_name (tag_text lab)) eqn:Hc; [|done].
      apply contains_spec in Hc. by destruct (Hr lab).
  - induction 1 as [|r rows Hr _ IH]; simpl; [done|].
    destruct (find_class r "dpLabel") as [lab|]; [|done].
    destruct (contains row_name (tag_text lab)) eqn:Hc; [|done].
    apply contains_spec in Hc. by destruct (Hr lab).
Qed.

(** On the sample page the first row has no label, and the second is the
    Sunrise row: its value is returned, stripped. *)
Lemma row_helper_stops_at_first_row_witness :
  App.get_value_from_row
    (find_all_class (Docs.tag_in Docs.rows_page [0]%nat) "dpRow") "Sunrise" = "06:11 AM".
Proof.
  transitivity
    (match find_class (Docs.tag_in Docs.rows_page [0; 1]%nat) "dpValue" with
     | Some value_element => strip (tag_text value_element)
     | None => "Not Found"%string
     end); [|vm_compute; reflexivity].
  apply (proj1 (row_helper_stops_at_first_row
                  (find_all_class (Docs.tag_in Docs.rows_page [0]%nat) "dpRow")
                  "Sunrise")
           [Docs.tag_in Docs.rows_page [0; 0]%nat]
           (Docs.tag_in Docs.rows_page [0; 1]%nat)
           [Docs.tag_in Docs.rows_page [0; 2]%nat]
           (Docs.tag_in Docs.rows_page [0; 1; 0]%nat)).
  - vm_compute. reflexivity.
  - constructor; [|constructor]. intros lab Hlab. vm_compute in Hlab. discriminate Hlab.
  - vm_compute. reflexivity.
  - apply contains_spec. vm_compute. reflexivity.
Defined.

(** ** More on the handler *)

Section MoreAnswers.
Context `{Platform}.

(** X9. The location changes the answer of the handler only by being empty
    or not: two requests that agree on everything but the location, with
    both locations empty or both not, get the same answer and cause the
    same requests. Both files. *)
Theorem location_matters_only_when_empty
    (args : gmap string string) (l1 l2 : string) (trace : list string) :
  (l1 = "" ↔ l2 = "") →
  Api.get_panchang (<["location" := l1]> args) trace =
    Api.get_panchang (<["location" := l2]> args) trace ∧
  App.get_panchang (<["location" := l1]> args) trace =
    App.get_panchang (<["location" := l2]> args) trace.
Proof.
  intros Hempty.
  destruct (decide (l1 = "")) as [Hl1|Hl1].
  - pose proof (proj1 Hempty Hl1). by subst.
  - apply get_panchang_location; [done|]. intros Hl2. by apply Hl1, Hempty.
Qed.

(** X10. A request whose dates parse, with the start date after the end
    date, is answered with status 200 and the empty list, and no request is
    made, whatever the end date. Both files. *)
Theorem inverted_range_is_empty
    (args : gmap string string) (trace : list string) (s e l : string) (sd ed : date) :
  args !! "start_date" = Some s → args !! "end_date" = Some e →
  args !! "location" = Some l →
  s ≠ "" → e ≠ "" → l ≠ "" →
  strptime s "%Y-%m-%d" = Some sd → strptime e "%Y-%m-%d" = Some ed →
  (toordinal ed < toordinal sd)%Z →
  Api.get_panchang args trace = (Ok (PanchangBody [], 200%Z), trace) ∧
  App.get_panchang args trace = (Ok (PanchangBody [], 200%Z), trace).
Proof.
  intros Hs He Hl Hs' He' Hl' Hsd Hed Hlt.
  pose proof (all_truthy _ _ _ _ Hs He Hl Hs' He' Hl') as Hall.
  unfold Api.get_panchang, App.get_panchang.
  rewrite !(get_panchang_valid _ _ _ _ _ _ _ _ _ _ _ Hall Hs He Hl Hsd Hed).
  by rewrite !while_days_inverted.
Qed.

Lemma api_entry_error_iff d location trace :
  is_Some (Handler.day_entry Api.failed_message d
             (Api.scrape_panchang_for_day d location trace).1 !! "error") ↔
  ¬ is_Some (Api.scrape_panchang_for_day d location trace).1.
Proof.
  destruct (api_entry_shape d location trace) as [[Hdom Herr]|[Hdom Herr]];
    cbv zeta in *.
  - destruct (Api.scrape_panchang_for_day d location trace).1 as [data|] eqn:Hd.
    + apply (api_scrape_keys bs4_ops d location trace) in Hd.
      destruct (seven_keys_not_empty data Hd) as [Hne Hnone].
      rewrite (day_entry_Some Api.failed_message d data Hne) in Herr. congruence.
    + rewrite Herr. split; [intros _ []; done|eauto].
  - rewrite Herr. split; [by intros []|]. intros Hno.
    destruct (Api.scrape_panchang_for_day d location trace).1 as [data|] eqn:Hd.
    + destruct Hno. eauto.
    + by destruct (day_entry_None Api.failed_message d) as (_ & Herr' & _);
        rewrite Herr' in Herr.
Qed.

Lemma app_entry_error_iff d location trace :
  is_Some (Handler.day_entry App.failed_message d
             (App.scrape_panchang_for_day d location trace).1 !! "error") ↔
  ¬ is_Some (App.scrape_panchang_for_day d location trace).1.
Proof.
  destruct (app_entry_shape d location trace) as [[Hdom Herr]|[Hdom Herr]];
    cbv zeta in *.
  - destruct (App.scrape_panchang_for_day d location trace).1 as [data|] eqn:Hd.
    + apply (app_scrape_keys d location trace) in Hd.
      destruct (seven_keys_not_empty data Hd) as [Hne Hnone].
      rewrite (day_entry_Some App.failed_message d data Hne) in Herr. congruence.
    + rewrite Herr. split; [intros _ []; done|eauto].
  - rewrite Herr. split; [by intros []|]. intros Hno.
    destruct (App.scrape_panchang_for_day d location trace).1 as [data|] eqn:Hd.
    + destruct Hno. eauto.
    + by destruct (day_entry_None App.failed_message d) as (_ & Herr' & _);
        rewrite Herr' in Herr.
Qed.
End MoreAnswers.

Lemma location_matters_only_when_empty_witness :
  @Api.get_panchang (Docs.platform "card")
     (<["location" := "New Delhi"]> (Docs.request "2024-01-01" "2024-01-03" "")) [] =
  @Api.get_panchang (Docs.platform "card")
     (<["location" := "Mumbai"]> (Docs.request "2024-01-01" "2024-01-03" "")) [].
Proof.
  apply (@location_matters_only_when_empty (Docs.platform "card")).
  split; discriminate.
Defined.

Lemma inverted_range_is_empty_witness :
  @Api.get_panchang (Docs.platform "card")
     (Docs.request "2024-01-03" "2024-01-01" "New Delhi") [] =
    (Ok (PanchangBody [], 200%Z), []).
Proof.
  apply (@inverted_range_is_empty (Docs.platform "card")
           (Docs.request "2024-01-03" "2024-01-01" "New Delhi") []
           "2024-01-03" "2024-01-01" "New Delhi"
           (mkdate 738888 eq_refl) Docs.new_year).
  1-3: vm_compute; reflexivity.
  1-3: discriminate.
  1-2: vm_compute; reflexivity.
  vm_compute. reflexivity.
Defined.

Section Isolation.
Context `{Platform}.

(** X11. In an answered range each day stands alone. For every day of a
    range that ends before 9999-12-31, the entry of that day is the error
    placeholder exactly when that day's own request failed: it raised, or
    came back with a 4xx or 5xx status, or its body had no anchor (in
    [app.py]: no [div.dpPanchang]). A failure on one day neither ends the
    loop nor touches the entry of another day. Both files. *)
Theorem each_day_stands_alone
    (args : gmap string string) (trace : list string) (s e l : string) (sd ed : date) :
  args !! "start_date" = Some s → args !! "end_date" = Some e →
  args !! "location" = Some l →
  s ≠ "" → e ≠ "" → l ≠ "" →
  strptime s "%Y-%m-%d" = Some sd → strptime e "%Y-%m-%d" = Some ed →
  (toordinal ed < MAXORDINAL)%Z →
  (∃ out urls,
     Api.get_panchang args trace = (Ok (PanchangBody out, 200%Z), trace ++ urls) ∧
     length out = Z.to_nat (toordinal ed - toordinal sd + 1) ∧
     ∀ (i : nat), (i < length out)%nat →
       ∃ d entry, toordinal d = (toordinal sd + Z.of_nat i)%Z ∧
         out !! i = Some entry ∧
         (is_Some (entry !! "error") ↔
          ¬ ∃ response,
              requests_get (trace ++ take i urls)
                (Api.url_for (strftime d "%d/%m/%Y")) = Ok response ∧
              ¬ (400 ≤ status_code response < 600)%Z ∧
              is_Some (Api.resolved_anchor (soup_of (html_parser (text response)))))) ∧
  (∃ out urls,
     App.get_panchang args trace = (Ok (PanchangBody out, 200%Z), trace ++ urls) ∧
     length out = Z.to_nat (toordinal ed - toordinal sd + 1) ∧
     ∀ (i : nat), (i < length out)%nat →
       ∃ d entry, toordinal d = (toordinal sd + Z.of_nat i)%Z ∧
         out !! i = Some entry ∧
         (is_Some (entry !! "error") ↔
          ¬ ∃ response,
              requests_get (trace ++ take i urls)
                (App.url_for (strftime d "%d/%m/%Y")) = Ok response ∧
              ¬ (400 ≤ status_code response < 600)%Z ∧
              is_Some (find (soup_of (html_parser (text response)))
                         "div" "dpPanchang" None))).
Proof.
  intros Hs He Hl Hs' He' Hl' Hsd Hed Hmax.
  pose proof (all_truthy _ _ _ _ Hs He Hl Hs' He' Hl') as Hall.
  split.
  - unfold Api.get_panchang.
    rewrite (get_panchang_valid _ _ _ _ _ _ _ _ _ _ _ Hall Hs He Hl Hsd Hed).
    destruct (while_days_run Api.scrape_panchang_for_day Api.failed_message
                (λ d, Api.url_for (strftime d "%d/%m/%Y"))
                (api_scrape_logs bs4_ops) sd ed l [] trace Hmax)
      as (out & urls & -> & Hlen & Hurls & Hrun).
    exists out, urls. split_and!; [done..|].
    intros i Hi. destruct (Hrun i Hi) as (d & Hd & Hurl & Hout).
    eexists d, _. split_and!; [done..|].
    rewrite api_entry_error_iff. unfold Api.scrape_panchang_for_day.
    by rewrite api_day_record_iff.
  - unfold App.get_panchang.
    rewrite (get_panchang_valid _ _ _ _ _ _ _ _ _ _ _ Hall Hs He Hl Hsd Hed).
    destruct (while_days_run App.scrape_panchang_for_day App.failed_message
                (λ d, App.url_for (strftime d "%d/%m/%Y"))
                app_scrape_logs sd ed l [] trace Hmax)
      as (out & urls & -> & Hlen & Hurls & Hrun).
    exists out, urls. split_and!; [done..|].
    intros i Hi. destruct (Hrun i Hi) as (d & Hd & Hurl & Hout).
    eexists d, _. split_and!; [done..|].
    rewrite app_entry_error_iff. by rewrite app_day_record_iff.
Qed.
End Isolation.

(** A network that fails on the second request only: of the three days,
    the second gets the placeholder and the other two their records. *)
Lemma each_day_stands_alone_witness :
  ∃ out urls,
    @Api.get_panchang
       (Sample.platform
          (λ earlier _, if Nat.eqb (length earlier) 1
                        then Raise RequestException else Ok (mkResponse 200 "card"))
          Docs.parse)
       (Docs.request "2024-01-01" "2024-01-03" "New Delhi") [] =
      (Ok (PanchangBody out, 200%Z), urls) ∧
    (λ entry : gmap string string, bool_decide (is_Some (entry !! "error"))) <$> out =
      [false; true; false] ∧
    length urls = 3%nat.
Proof.
  destruct (@each_day_stands_alone
              (Sample.platform
                 (λ earlier _, if Nat.eqb (length earlier) 1
                               then Raise RequestException else Ok (mkResponse 200 "card"))
                 Docs.parse)
              (Docs.request "2024-01-01" "2024-01-03" "New Delhi") []
              "2024-01-01" "2024-01-03" "New Delhi"
              Docs.new_year (mkdate 738888 eq_refl))
    as [(out & urls & Hrun & _) _].
  1-3: vm_compute; reflexivity.
  1-3: discriminate.
  1-2: vm_compute; reflexivity.
  { vm_compute. reflexivity. }
  vm_compute in Hrun. injection Hrun as <- <-.
  eexists _, _. split; [vm_compute; reflexivity|]. split; vm_compute; reflexivity.
Defined.

(** ** The record of [app.py] and the two files side by side *)

Section AppRecord.
Context `{Platform}.

(** X12. In [app.py] a parsed document yields a record exactly when it has
    a [div.dpPanchang]. The record then has the key "date" and the six
    field keys and no other, the date is the day asked for, and every field
    is what the row helper returns for its key over the [.dpRow] elements
    of that container: a container with no rows gives a record of six
    sentinels, not a failure. *)
Theorem app_record_whenever_container (soup : Tag) (d : date) :
  (is_Some (App.scrape_soup soup d) ↔
   is_Some (find soup "div" "dpPanchang" None)) ∧
  (∀ panchang_table data,
     find soup "div" "dpPanchang" None = Some panchang_table →
     App.scrape_soup soup d = Some data →
     data !! "date" = Some (strftime d "%Y-%m-%d") ∧
     (∀ key field, (key, field) ∈ Api.target_keys →
        data !! field =
          Some (App.get_value_from_row (find_all_class panchang_table "dpRow") key)) ∧
     (find_all_class panchang_table "dpRow" = [] →
      ∀ key field, (key, field) ∈ Api.target_keys → data !! field = Some "Not Found") ∧
     dom data = ({["date"; "sunrise"; "sunset"; "tithi"; "nakshatra"; "yoga"; "karana"]}
                   : gset string)).
Proof.
  split.
  - destruct (find soup "div" "dpPanchang" None) as [table|] eqn:Ht.
    + destruct (app_scrape_soup_record soup d table Ht) as (data & -> & _).
      split; eauto.
    + rewrite app_scrape_soup_None by done. split; by intros [].
  - intros table data Ht Hd.
    destruct (app_scrape_soup_record soup d table Ht)
      as (data' & Hd' & Hdate & Hfields & Hdom).
    assert (data' = data) as -> by congruence.
    split_and!; [done..| |done].
    intros Hrows key field Hk. rewrite (Hfields key field Hk). by rewrite Hrows.
Qed.
End AppRecord.

Lemma app_record_whenever_container_witness :
  ∃ data,
    @App.scrape_soup (Docs.platform "card") (soup_of Docs.rows_page) Docs.new_year
      = Some data ∧
    data !! "date" = Some "2024-01-01" ∧
    data !! "sunrise" = Some "06:11 AM" ∧
    data !! "sunset" = Some "Not Found".
Proof.
  destruct (@App.scrape_soup (Docs.platform "card") (soup_of Docs.rows_page)
              Docs.new_year) as [data|] eqn:Hd; [|vm_compute in Hd; discriminate Hd].
  destruct (proj2 (@app_record_whenever_container (Docs.platform "card")
                     (soup_of Docs.rows_page) Docs.new_year)
              (Docs.tag_in Docs.rows_page [0]%nat) data)
    as (Hdate & Hfields & _).
  - vm_compute. reflexivity.
  - exact Hd.
  - exists data. split_and!; [reflexivity|exact Hdate|..].
    + rewrite (Hfields "Sunrise" "sunrise"); [vm_compute; reflexivity|].
      unfold Api.target_keys. left.
    + rewrite (Hfields "Sunset" "sunset"); [vm_compute; reflexivity|].
      unfold Api.target_keys. right. left.
Defined.

Section SideBySide.
Context `{Platform}.
Variable scrape1 scrape2 :
  date → string → list string → option (gmap string string) * list string.
Variable failed1 failed2 : string.

(** The two day scrapers leave the same trace. *)
Hypothesis same_trace : ∀ d location trace,
  (scrape1 d location trace).2 = (scrape2 d location trace).2.

(** Two runs of the loop over scrapers that leave the same trace: they
    leave the same trace, end the same way, and their lists grow alike. *)
Lemma while_days_side_by_side current_date end_date location acc1 acc2 trace :
  length acc1 = length acc2 →
  (Handler.while_days scrape1 failed1 current_date end_date location acc1 trace).2 =
  (Handler.while_days scrape2 failed2 current_date end_date location acc2 trace).2 ∧
  match (Handler.while_days scrape1 failed1 current_date end_date location acc1 trace).1,
        (Handler.while_days scrape2 failed2 current_date end_date location acc2 trace).1
  with
  | Ok out1, Ok out2 => length out1 = length out2
  | Raise e1, Raise e2 => e1 = e2
  | _, _ => False
  end.
Proof.
  remember (Z.to_nat (toordinal end_date - toordinal current_date + 1)) as n eqn:Hn.
  revert current_date acc1 acc2 trace Hn.
  induction n as [n IH] using lt_wf_ind; intros cur acc1 acc2 trace Hn Hacc.
  rewrite (while_days_unfold scrape1), (while_days_unfold scrape2). unfold date_le.
  destruct (Z.leb_spec (toordinal cur) (toordinal end_date)); [|done].
  rewrite same_trace.
  destruct (add_days cur 1) as [next|e] eqn:Hnext; [|done].
  apply add_days_Ok in Hnext.
  eapply IH; [|reflexivity|]; [lia|].
  rewrite !length_app. simpl. lia.
Qed.
End SideBySide.

Section TwoFiles.
Context `{Platform}.

(** X13. The two files are alike in everything but the content of the
    entries and the texts of the messages: on the same request and the same
    network, the handlers of [api/app.py] and [app.py] make the same
    requests in the same order and end the same way, with the same status,
    a list of the same length, or the same exception. *)
Theorem two_files_same_traffic (args : gmap string string) (trace : list string) :
  (Api.get_panchang args trace).2 = (App.get_panchang args trace).2 ∧
  match (Api.get_panchang args trace).1, (App.get_panchang args trace).1 with
  | Ok (ErrorBody _, status1), Ok (ErrorBody _, status2) => status1 = status2
  | Ok (PanchangBody out1, status1), Ok (PanchangBody out2, status2) =>
      status1 = status2 ∧ length out1 = length out2
  | Raise e1, Raise e2 => e1 = e2
  | _, _ => False
  end.
Proof.
  unfold Api.get_panchang, App.get_panchang, Handler.get_panchang.
  destruct (negb _); [done|].
  destruct (_ ≫= _) as [[sd ed]|]; [|done]. simpl.
  destruct (while_days_side_by_side
              Api.scrape_panchang_for_day App.scrape_panchang_for_day
              Api.failed_message App.failed_message
              (λ d location t,
                 eq_trans (api_scrape_logs bs4_ops d location t)
                          (eq_sym (app_scrape_logs d location t)))
              sd ed (default "" (args !! "location")) [] [] trace eq_refl)
    as [Htrace Hkind].
  split; [done|].
  destruct (Handler.while_days Api.scrape_panchang_for_day _ _ _ _ _ _).1,
           (Handler.while_days App.scrape_panchang_for_day _ _ _ _ _ _).1;
    simpl; done.
Qed.
End TwoFiles.
